(** * The notifier core of node-binance-trader

    A shallow embedding of [src/trader/notifiers/index.ts]: the channel
    registry ([initializeNotifiers]), the fan-out ([notifyAll]), the message
    renderer ([getNotifierMessage]) and the shared scalar formatter
    ([format]), followed by the properties of the specification that the
    code decides.

    Conventions.
    - A JavaScript string is a [string]: a sequence of code units.  The
      built-ins below are exact on ASCII text; code units outside ASCII are
      left as they are by [toUpperCase] and are not white space for [trim].
    - A JavaScript [number] is a binary64 [float]; its arithmetic is the
      primitive one, so rounding is the machine's.
    - A [throw] is a [Throw] of the [Result] monad.
    - The module-level array [notifiers], the calls made on the channels and
      the lines written by the logger are fields of an explicit [Module]
      state that the registry functions pass along. *)

From Stdlib Require Import ZArith String Ascii List Bool Floats DecimalString Lia.
Import ListNotations.

Open Scope string_scope.
Open Scope Z_scope.

(** ** Exceptions *)

Inductive Exception : Type :=
| RangeError          (* Number.prototype.toFixed, Date.prototype.toISOString *)
| BigNumberError      (* bignumber.js argument check *)
| ConfigurationError. (* named by the specification only *)

Inductive Result (A : Type) : Type :=
| Return (a : A)
| Throw (e : Exception).

Arguments Return {A} a.
Arguments Throw {A} e.

Definition bind {A B : Type} (r : Result A) (k : A -> Result B) : Result B :=
  match r with
  | Return a => k a
  | Throw e => Throw e
  end.

Declare Scope result_scope.
Delimit Scope result_scope with result.
Notation "'let*' x ':=' r 'in' k" := (bind r (fun x => k))
  (at level 10, x name, r at level 100, k at level 200) : result_scope.
Notation "'let*' ' p ':=' r 'in' k" := (bind r (fun p => k))
  (at level 10, p strict pattern, r at level 100, k at level 200) : result_scope.
Open Scope result_scope.

(** ** JavaScript built-ins used by the module *)

Module JS.

(** *** Strings *)

Definition isWhiteSpace (c : ascii) : bool :=
  let n := nat_of_ascii c in
  ((9 <=? n) && (n <=? 13) || (n =? 32))%nat.

Fixpoint trimStart (s : string) : string :=
  match s with
  | EmptyString => EmptyString
  | String c s' => if isWhiteSpace c then trimStart s' else s
  end.

Fixpoint trimEnd (s : string) : string :=
  match s with
  | EmptyString => EmptyString
  | String c s' =>
      match trimEnd s' with
      | EmptyString => if isWhiteSpace c then EmptyString else String c EmptyString
      | t => String c t
      end
  end.

(** [s.trim()] *)
Definition trim (s : string) : string := trimEnd (trimStart s).

Definition upper (c : ascii) : ascii :=
  let n := nat_of_ascii c in
  if ((97 <=? n) && (n <=? 122))%nat then ascii_of_nat (n - 32) else c.

(** [s.toUpperCase()] *)
Fixpoint toUpperCase (s : string) : string :=
  match s with
  | EmptyString => EmptyString
  | String c s' => String (upper c) (toUpperCase s')
  end.

(** [s.slice(start, end)]; [None] is an omitted [end]. *)
Definition slice (s : string) (start : Z) (stop : option Z) : string :=
  let len := Z.of_nat (String.length s) in
  let clamp k := if k <? 0 then Z.max (len + k) 0 else Z.min k len in
  let from := clamp start in
  let to := match stop with None => len | Some e => clamp e end in
  substring (Z.to_nat from) (Z.to_nat (Z.max (to - from) 0)) s.

(** [s.includes(sub)] *)
Fixpoint includes (s sub : string) : bool :=
  prefix sub s ||
  match s with
  | EmptyString => false
  | String _ s' => includes s' sub
  end.

(** [a.join(sep)] on an array of strings. *)
Definition join (a : list string) (sep : string) : string := String.concat sep a.

(** [a.indexOf(x)] on an array of strings: the first position of [x], or -1. *)
Fixpoint indexOf (a : list string) (x : string) : Z :=
  match a with
  | [] => -1
  | y :: a' =>
      if String.eqb y x then 0
      else let i := indexOf a' x in if i <? 0 then -1 else i + 1
  end.

(** Truthiness of an optional string: defined and not empty. *)
Definition truthy (s : option string) : bool :=
  match s with
  | Some (String _ _) => true
  | _ => false
  end.

(** *** [s.replace(/\.?0+$/, "")]

    The pattern is anchored at the end of the input, so a match is a suffix:
    [matches_here s] says that the whole of [s] matches [\.?0+].  The
    replacement removes the leftmost match, which [replace_trailing_zeros]
    finds by scanning the start positions from the left. *)

Fixpoint all_zeros (s : string) : bool :=
  match s with
  | EmptyString => false
  | String "0" EmptyString => true
  | String "0" s' => all_zeros s'
  | String _ _ => false
  end.

Definition matches_here (s : string) : bool :=
  match s with
  | String "." s' => all_zeros s'
  | _ => all_zeros s
  end.

Fixpoint replace_trailing_zeros (s : string) : string :=
  match s with
  | EmptyString => EmptyString
  | String c s' => if matches_here s then EmptyString else String c (replace_trailing_zeros s')
  end.

(** *** Decimal digits *)

Definition decimal (n : Z) : string := NilZero.string_of_uint (N.to_uint (Z.to_N n)).

Fixpoint zeros (k : nat) : string :=
  match k with
  | O => EmptyString
  | S k' => String "0" (zeros k')
  end.

Definition padStart (width : nat) (s : string) : string :=
  zeros (width - String.length s) ++ s.

(** The integer [n] for which [n / 10^f - num/den] is closest to zero, the
    larger one of two ([num >= 0], [den > 0]). *)
Definition round_half_up (num den : Z) (f : Z) : Z :=
  (2 * num * 10 ^ f + den) / (2 * den).

(** The digits of [n / 10^f] with exactly [f] digits after the point (steps
    11.b to 11.d of Number.prototype.toFixed). *)
Definition fixed_point (n : Z) (f : Z) : string :=
  let m := decimal n in
  if f =? 0 then m
  else
    let f' := Z.to_nat f in
    let k := String.length m in
    let m' := if (k <=? f')%nat then zeros (f' + 1 - k) ++ m else m in
    let k' := String.length m' in
    substring 0 (k' - f') m' ++ "." ++ substring (k' - f') f' m'.

(** *** Numbers *)

(** The number nearest to an integer (ties to even). *)
Definition Z2float (z : Z) : float := SF2Prim (binary_normalize prec emax z 0 false).

(** Truthiness of a number: neither zero nor NaN. *)
Definition number_truthy (x : float) : bool :=
  match Prim2SF x with
  | S754_zero _ | S754_nan => false
  | _ => true
  end.

(** [x.toFixed(f)].  ECMAScript leaves the digits of [Number::toString] to
    the implementation where several shortest representations exist, so the
    rendering of the finite numbers from 10^21 on is a parameter. *)
Definition Number_toFixed (Number_toString : float -> string)
    (x : float) (f : Z) : Result string :=
  if (f <? 0) || (100 <? f) then Throw RangeError
  else
    match Prim2SF x with
    | S754_nan => Return "NaN"
    | S754_infinity s => Return (if s then "-Infinity" else "Infinity")
    | S754_zero _ => Return (fixed_point 0 f)
    | S754_finite s m e =>
        let num := if 0 <=? e then Zpos m * 2 ^ e else Zpos m in
        let den := if 0 <=? e then 1 else 2 ^ (- e) in
        let digits :=
          if 10 ^ 21 * den <=? num then Number_toString (abs x)
          else fixed_point (round_half_up num den f) f in
        Return ((if s then "-" else "") ++ digits)
    end.

(** *** Dates *)

(** A Date holds a time value: milliseconds since the epoch, or NaN. *)
Inductive Date : Type :=
| Date_at (t : Z)
| Invalid_Date.

(** [d.getTime()] *)
Definition getTime (d : Date) : float :=
  match d with
  | Date_at t => Z2float t
  | Invalid_Date => nan
  end.

Definition msPerDay : Z := 86400000.

(** Year, month and day of a day number (days since 1970-01-01) in the
    proleptic Gregorian calendar. *)
Definition civil (day : Z) : Z * Z * Z :=
  let z := day + 719468 in
  let era := z / 146097 in
  let doe := z - era * 146097 in
  let yoe := (doe - doe / 1460 + doe / 36524 - doe / 146096) / 365 in
  let doy := doe - (365 * yoe + yoe / 4 - yoe / 100) in
  let mp := (5 * doy + 2) / 153 in
  let d := doy - (153 * mp + 2) / 5 + 1 in
  let m := if mp <? 10 then mp + 3 else mp - 9 in
  let y := yoe + era * 400 + (if m <=? 2 then 1 else 0) in
  (y, m, d).

Definition isoYear (y : Z) : string :=
  if (0 <=? y) && (y <=? 9999) then padStart 4 (decimal y)
  else (if y <? 0 then "-" else "+") ++ padStart 6 (decimal (Z.abs y)).

(** [d.toISOString()] *)
Definition toISOString (d : Date) : Result string :=
  match d with
  | Invalid_Date => Throw RangeError
  | Date_at t =>
      let '(y, m, dd) := civil (t / msPerDay) in
      let ms := t mod msPerDay in
      Return (isoYear y ++ "-" ++ padStart 2 (decimal m) ++ "-" ++ padStart 2 (decimal dd)
              ++ "T" ++ padStart 2 (decimal (ms / 3600000))
              ++ ":" ++ padStart 2 (decimal (ms / 60000 mod 60))
              ++ ":" ++ padStart 2 (decimal (ms / 1000 mod 60))
              ++ "." ++ padStart 3 (decimal (ms mod 1000)) ++ "Z")
  end.

End JS.

Import JS.

(** ** Data model *)

(** Modelled from the spec: the settings object that [env()] of ./../env
    returns, with the five settings that index.ts reads: which channels are
    enabled, the minimum severity level to deliver (a string naming a
    severity), the short-vs-verbose switch and the numeric display
    precision (an integer). *)
Record Env : Type := {
  IS_NOTIFIER_GMAIL_ENABLED : bool;
  IS_NOTIFIER_TELEGRAM_ENABLED : bool;
  NOTIFIER_LEVEL : string;
  IS_NOTIFIER_SHORT : bool;
  MAX_WEB_PRECISION : Z
}.

(** Modelled from the spec: [NotifierMessage] of ../types/notifier, the
    rendered message: severity (echoed through), subject, body and html
    body, which are the four fields of the object built at lines 158-163.
    [MessageType] is a string enum (line 66 assigns a member to a string
    variable): its members are strings at run time. *)
Record NotifierMessage : Type := {
  messageType : string;
  subject : string;
  content : string;
  contentHtml : string
}.

(** A numeric field is a bignumber.js value or a JavaScript number; the
    BigNumber type itself is a parameter of the development. *)
Inductive Numeric (BigNumber : Type) : Type :=
| big (b : BigNumber)
| number (x : float).

Arguments big {BigNumber} b.
Arguments number {BigNumber} x.

(** The argument type of [format]:
    [BigNumber | number | Date | string | undefined]. *)
Inductive Scalar (BigNumber : Type) : Type :=
| undefined
| of_BigNumber (b : BigNumber)
| of_number (x : float)
| of_Date (d : Date)
| of_string (s : string).

Arguments undefined {BigNumber}.
Arguments of_BigNumber {BigNumber} b.
Arguments of_number {BigNumber} x.
Arguments of_Date {BigNumber} d.
Arguments of_string {BigNumber} s.

Definition of_Numeric {BigNumber : Type} (v : option (Numeric BigNumber)) : Scalar BigNumber :=
  match v with
  | None => undefined
  | Some (big b) => of_BigNumber b
  | Some (number x) => of_number x
  end.

Definition of_optional {BigNumber A : Type} (inj : A -> Scalar BigNumber) (v : option A)
  : Scalar BigNumber :=
  match v with
  | None => undefined
  | Some a => inj a
  end.

(** Modelled from the spec: the [Signal] and [TradeOpen] declarations of
    ../types/bva, which index.ts only imports.  The records hold the
    fields that index.ts reads, with the types its uses require: the members
    of string enums and names are strings, what is passed to [format] or to
    arithmetic is an optional [Numeric], what receives [getTime] is an
    optional [Date]. *)
Module Signal.
Record t (BigNumber : Type) : Type := {
  entryType : string;
  symbol : string;
  positionType : string;
  strategyName : string;
  price : option (Numeric BigNumber);
  score : string;
  timestamp : option Date
}.
Arguments entryType {BigNumber} _.
Arguments symbol {BigNumber} _.
Arguments positionType {BigNumber} _.
Arguments strategyName {BigNumber} _.
Arguments price {BigNumber} _.
Arguments score {BigNumber} _.
Arguments timestamp {BigNumber} _.
End Signal.

Module TradeOpen.
Record t (BigNumber : Type) : Type := {
  symbol : string;
  positionType : string;
  strategyName : string;
  quantity : option (Numeric BigNumber);
  cost : option (Numeric BigNumber);
  borrow : option (Numeric BigNumber);
  wallet : option string;
  tradingType : option string;
  priceBuy : option (Numeric BigNumber);
  timeBuy : option Date;
  priceSell : option (Numeric BigNumber);
  timeSell : option Date
}.
Arguments symbol {BigNumber} _.
Arguments positionType {BigNumber} _.
Arguments strategyName {BigNumber} _.
Arguments quantity {BigNumber} _.
Arguments cost {BigNumber} _.
Arguments borrow {BigNumber} _.
Arguments wallet {BigNumber} _.
Arguments tradingType {BigNumber} _.
Arguments priceBuy {BigNumber} _.
Arguments timeBuy {BigNumber} _.
Arguments priceSell {BigNumber} _.
Arguments timeSell {BigNumber} _.
End TradeOpen.

Definition LF : string := String (ascii_of_nat 10) EmptyString.

(** ** What the module imports

    What index.ts imports from the libraries and from the other modules of
    the repository, and only names, is a parameter of the development:
    - bignumber.js: the type, [b.toFixed(dp)] for [0 <= dp <= 1e9],
      [b.isLessThan(n)], and the number that [b] becomes as an operand of
      [*];
    - [Number::toString] on the finite numbers from 10^21 on;
    - the members of the string enums that index.ts names (../types/notifier,
      ../types/bva, ../types/trader);
    - [calculatePnL] of ../trader. *)
Class Imports : Type := {
  BigNumber : Type;
  BigNumber_toFixed : BigNumber -> Z -> string;
  BigNumber_isLessThan : BigNumber -> float -> bool;
  BigNumber_toNumber : BigNumber -> float;
  Number_toString : float -> string;
  MessageType_INFO : string;
  MessageType_SUCCESS : string;
  PositionType_SHORT : string;
  SourceType_SIGNAL : string;
  calculatePnL : Numeric BigNumber -> Numeric BigNumber -> BigNumber
}.

(** ** The renderer *)

Section Renderer.

Context {imports : Imports}.

Local Abbreviation Signal := (Signal.t BigNumber).
Local Abbreviation TradeOpen := (TradeOpen.t BigNumber).

(** Truthiness of a defined numeric field: an object is truthy, a number is
    unless it is zero or NaN. *)
Definition Numeric_truthy (v : Numeric BigNumber) : bool :=
  match v with
  | big _ => true
  | number x => number_truthy x
  end.

(** The number an operand of [*] is converted to. *)
Definition ToNumber (v : option (Numeric BigNumber)) : float :=
  match v with
  | None => nan
  | Some (big b) => BigNumber_toNumber b
  | Some (number x) => x
  end.

(** [format(value, precision)] (index.ts, 166-178); [None] is an omitted
    [precision], which defaults to [env().MAX_WEB_PRECISION]. *)
Definition format (env : Env) (value : Scalar BigNumber) (precision : option Z) : Result string :=
  let precision := match precision with Some p => p | None => MAX_WEB_PRECISION env end in
  match value with
  | undefined => Return ""
  | of_BigNumber b =>
      if (precision <? 0) || (10 ^ 9 <? precision) then Throw BigNumberError
      else Return (replace_trailing_zeros (BigNumber_toFixed b precision))
  | of_number x =>
      let* s := Number_toFixed Number_toString x precision in
      Return (replace_trailing_zeros s)
  | of_Date d => toISOString d
  | of_string s => Return s
  end.

(** Lines 49-54. *)
Definition type_of (signal : option Signal) (tradeOpen : option TradeOpen) : string :=
  match tradeOpen with
  | Some _ => "trade"
  | None => match signal with Some _ => "signal" | None => "Notification" end
  end.

Definition action_of (signal : option Signal) (tradeOpen : option TradeOpen) : string :=
  let type := type_of signal tradeOpen in
  match signal with
  | Some signal =>
      Signal.entryType signal ++ " " ++ Signal.symbol signal ++ " "
        ++ Signal.positionType signal ++ " " ++ type ++ "."
  | None =>
      match tradeOpen with
      | Some tradeOpen =>
          TradeOpen.symbol tradeOpen ++ " " ++ TradeOpen.positionType tradeOpen ++ " " ++ type ++ "."
      | None => type ++ "."
      end
  end.

(** Lines 56-60. *)
Definition base_of (messageType action : string) : string :=
  trim (messageType ++ " " ++ action).

Definition baseHtml_of (messageType action : string) : string :=
  let colour := if (messageType =? MessageType_SUCCESS)%string then "#008000" else "#ff0000" in
  if (messageType =? MessageType_INFO)%string
  then "<b>" ++ action ++ "</b>"
  else "<font color=" ++ colour ++ "><b>" ++ messageType ++ "</b></font> " ++ action ++ " ".

(** [content.push(x)] on the local array [content]. *)
Definition push (content : list string) (x : string) : list string := (content ++ [x])%list.

(** *** Short mode (lines 66-118) *)

(** Lines 68-72. *)
Definition short_reason (content : list string) (reason : option string) : list string :=
  match reason with
  | Some r =>
      if truthy reason then
        let r := if (slice r (-1) None =? ".")%string then slice r 0 (Some (-1)) else r in
        push content r
      else content
  | None => content
  end.

(** Lines 75-84: the percentage and the headline that replaces the severity. *)
Definition short_pnl (env : Env) (messageType : string) (tradeOpen : TradeOpen)
    (content : list string) (contentRaw : string) : Result (list string * string) :=
  match TradeOpen.priceBuy tradeOpen, TradeOpen.priceSell tradeOpen with
  | Some priceBuy, Some priceSell =>
      if (messageType =? MessageType_SUCCESS)%string
         && Numeric_truthy priceBuy && Numeric_truthy priceSell
      then
        let percent := calculatePnL priceBuy priceSell in
        let* s := format env (of_BigNumber percent) (Some 3) in
        Return (push content (s ++ "%"),
                if BigNumber_isLessThan percent 0 then "LOSS!" else "PROFIT!")
      else Return (content, contentRaw)
  | _, _ => Return (content, contentRaw)
  end.

(** Line 86. *)
Definition short_cost (env : Env) (tradeOpen : TradeOpen) (content : list string)
  : Result (list string) :=
  match TradeOpen.cost tradeOpen with
  | Some cost =>
      if Numeric_truthy cost then
        let* s := format env (of_Numeric (Some cost)) None in
        Return (push content s)
      else Return content
  | None => Return content
  end.

(** Lines 89-91: the duration in seconds. *)
Definition duration (tradeOpen : TradeOpen) (timeBuy timeSell : Date) : float :=
  let dur := (getTime timeSell - getTime timeBuy)%float in
  let dur :=
    if (TradeOpen.positionType tradeOpen =? PositionType_SHORT)%string
    then (0 - dur)%float else dur in
  (dur / 1000)%float.

(** Lines 92-102. *)
Definition short_duration_text (env : Env) (dur : float) : Result string :=
  if (dur <=? 60)%float then
    let* s := format env (of_number dur) (Some 1) in Return (s ++ " sec")
  else
    let dur := (dur / 60)%float in
    if (dur <=? 60)%float then
      let* s := format env (of_number dur) (Some 1) in Return (s ++ " min")
    else
      let dur := (dur / 60)%float in
      let* s := format env (of_number dur) (Some 1) in Return (s ++ " hr").

(** The digits of [format(x, 1)], which cannot fail: one place is a valid
    precision. *)
Definition one_decimal (x : float) : string :=
  match Number_toFixed Number_toString x 1 with
  | Return s => replace_trailing_zeros s
  | Throw _ => EmptyString
  end.

(** The duration fragment in words: seconds up to 60, else minutes up to
    60, else hours, to one place with trailing zeros removed. *)
Definition duration_text (seconds : float) : string :=
  if (seconds <=? 60)%float then one_decimal seconds ++ " sec"
  else if (seconds / 60 <=? 60)%float then one_decimal (seconds / 60) ++ " min"
  else one_decimal (seconds / 60 / 60) ++ " hr".

(** Lines 88-103. *)
Definition short_duration (env : Env) (messageType : string) (tradeOpen : TradeOpen)
    (content : list string) : Result (list string) :=
  match TradeOpen.timeBuy tradeOpen, TradeOpen.timeSell tradeOpen with
  | Some timeBuy, Some timeSell =>
      if (messageType =? MessageType_SUCCESS)%string then
        let* s := short_duration_text env (duration tradeOpen timeBuy timeSell) in
        Return (push content s)
      else Return content
  | _, _ => Return content
  end.

(** Lines 74-104. *)
Definition short_trade (env : Env) (messageType : string) (tradeOpen : option TradeOpen)
    (content : list string) (contentRaw : string) : Result (list string * string) :=
  match tradeOpen with
  | Some tradeOpen =>
      let* '(content, contentRaw) := short_pnl env messageType tradeOpen content contentRaw in
      let* content := short_cost env tradeOpen content in
      let* content := short_duration env messageType tradeOpen content in
      Return (content, contentRaw)
  | None => Return (content, contentRaw)
  end.

(** Lines 106-108. *)
Definition short_source (content : list string) (source : option string) : list string :=
  match source with
  | Some s =>
      if truthy source && negb (s =? SourceType_SIGNAL)%string then push content s else content
  | None => content
  end.

(** Line 110. *)
Definition short_separator (content : list string) : list string :=
  match content with
  | [] => content
  | _ :: _ => push content ""
  end.

(** Lines 114-118. *)
Definition short_strategy (contentRaw : string) (signal : option Signal)
    (tradeOpen : option TradeOpen) : string :=
  match tradeOpen with
  | Some tradeOpen => contentRaw ++ " " ++ TradeOpen.strategyName tradeOpen ++ "."
  | None =>
      match signal with
      | Some signal => contentRaw ++ " " ++ Signal.strategyName signal ++ "."
      | None => contentRaw
      end
  end.

(** The fragments collected in [content], with the headline (lines 66-110). *)
Definition short_content (env : Env) (messageType : string) (source : option string)
    (tradeOpen : option TradeOpen) (reason : option string) : Result (list string * string) :=
  let contentRaw := messageType in
  let content := short_reason [] reason in
  let* '(content, contentRaw) := short_trade env messageType tradeOpen content contentRaw in
  let content := short_source content source in
  Return (short_separator content, contentRaw).

(** *** Verbose mode (lines 120-155) *)

(** Line 129 is the expression statement
    [content.push("score: ") + signal.score === "NA" ? "N/A" : signal.score].
    [+] binds tighter than [===], which binds tighter than [?:]: the
    statement pushes ["score: "], adds the score to the number that [push]
    returns (the new length), compares that string with ["NA"] and selects a
    value that nothing receives.  The function returns the array after the
    statement and the value of the expression. *)
Definition score_statement (content : list string) (signal : Signal) : list string * string :=
  let content := push content "score: " in
  let pushed := decimal (Z.of_nat (List.length content)) in
  (content,
   if (pushed ++ Signal.score signal =? "NA")%string then "N/A" else Signal.score signal).

(** Lines 126-134. *)
Definition verbose_signal (env : Env) (signal : option Signal) (tradeOpen : option TradeOpen)
    (content : list string) : Result (list string) :=
  match signal with
  | Some signal =>
      let content := push content ("strategy: " ++ Signal.strategyName signal) in
      let* price := format env (of_Numeric (Signal.price signal)) None in
      let content := push content ("signal price: " ++ price) in
      let content := fst (score_statement content signal) in
      let* received := format env (of_optional of_Date (Signal.timestamp signal)) None in
      Return (push content ("signal received: " ++ received))
  | None =>
      match tradeOpen with
      | Some tradeOpen => Return (push content ("strategy: " ++ TradeOpen.strategyName tradeOpen))
      | None => Return content
      end
  end.

(** Lines 136-148. *)
Definition verbose_trade (env : Env) (tradeOpen : option TradeOpen) (content : list string)
  : Result (list string) :=
  match tradeOpen with
  | Some tradeOpen =>
      let* quantity := format env (of_Numeric (TradeOpen.quantity tradeOpen)) None in
      let content := push content ("quantity: " ++ quantity) in
      let* cost := format env (of_Numeric (TradeOpen.cost tradeOpen)) None in
      let content := push content ("cost: " ++ cost) in
      let* borrow := format env (of_Numeric (TradeOpen.borrow tradeOpen)) None in
      let content := push content ("borrow: " ++ borrow) in
      let* wallet := format env (of_optional of_string (TradeOpen.wallet tradeOpen)) None in
      let content := push content ("wallet: " ++ wallet) in
      let* tradingType := format env (of_optional of_string (TradeOpen.tradingType tradeOpen)) None in
      let content := push content ("type: " ++ tradingType) in
      let* priceBuy := format env (of_Numeric (TradeOpen.priceBuy tradeOpen)) None in
      let content := push content ("trade buy price: " ++ priceBuy) in
      let* timeBuy := format env (of_optional of_Date (TradeOpen.timeBuy tradeOpen)) None in
      let content := push content ("buy executed: " ++ timeBuy) in
      let* priceSell := format env (of_Numeric (TradeOpen.priceSell tradeOpen)) None in
      let content := push content ("trade sell price: " ++ priceSell) in
      let* timeSell := format env (of_optional of_Date (TradeOpen.timeSell tradeOpen)) None in
      let content := push content ("sell executed: " ++ timeSell) in
      let quantity := ToNumber (TradeOpen.quantity tradeOpen) in
      let* lucro :=
        format env
          (of_number (quantity * ToNumber (TradeOpen.priceSell tradeOpen)
                      - quantity * ToNumber (TradeOpen.priceBuy tradeOpen))%float) None in
      Return (push content ("LUCRO: " ++ lucro))
  | None => Return content
  end.

(** Lines 150-153. *)
Definition verbose_reason (content : list string) (reason : option string) : list string :=
  match reason with
  | Some r => if truthy reason then push (push content "") r else content
  | None => content
  end.

(** The lines collected in [content] (lines 120-153). *)
Definition verbose_content (env : Env) (source : option string) (signal : option Signal)
    (tradeOpen : option TradeOpen) (reason : option string) : Result (list string) :=
  let content := push [] "" in
  let content :=
    match source with
    | Some s => if truthy source then push content ("source: " ++ s) else content
    | None => content
    end in
  let* content := verbose_signal env signal tradeOpen content in
  let* content := verbose_trade env tradeOpen content in
  Return (verbose_reason content reason).

(** *** [getNotifierMessage] (lines 42-164) *)

Definition getNotifierMessage (env : Env) (messageType : string) (source : option string)
    (signal : option Signal) (tradeOpen : option TradeOpen) (reason : option string)
  : Result NotifierMessage :=
  let action := action_of signal tradeOpen in
  let base := base_of messageType action in
  let baseHtml := baseHtml_of messageType action in
  let* '(content, contentRaw) :=
    if IS_NOTIFIER_SHORT env then
      let* '(content, contentRaw) := short_content env messageType source tradeOpen reason in
      let contentRaw := trim (contentRaw ++ " " ++ join content ". " ++ action) in
      Return (content, short_strategy contentRaw signal tradeOpen)
    else
      let* content := verbose_content env source signal tradeOpen reason in
      Return (content, base ++ " " ++ join content LF)
  in
  Return {| messageType := messageType;
            subject := base;
            content := contentRaw;
            contentHtml := baseHtml ++ join content "<br/>" |}.

End Renderer.


(** ** The channel registry and the fan-out *)

(** An object passed by reference: the same object is the same [address]. *)
Record Object (A : Type) : Type := {
  address : nat;
  fields : A
}.

Arguments address {A} _.
Arguments fields {A} _.

(** The notifiers that [gmail()] and [telegram()] build; the transports
    themselves (./gmail, ./telegram) are external. *)
Inductive Notifier : Type := gmail | telegram.

Definition Notifier_eqb (a b : Notifier) : bool :=
  match a, b with
  | gmail, gmail | telegram, telegram => true
  | _, _ => false
  end.

(** What a promise is rejected with. *)
Definition Reason : Type := string.

(** What becomes of the promise that a channel's [notify] returns. *)
Inductive Outcome : Type :=
| Fulfils
| Rejects (reason : Reason)
| Never.

(** The state in which the promise returned by [notifyAll] ends up. *)
Inductive Promise : Type :=
| resolved
| rejected (reason : Reason)
| pending.

Record Invocation : Type := {
  callee : Notifier;
  argument : Object NotifierMessage
}.

Definition call (notifierMessage : Object NotifierMessage) (notifier : Notifier) : Invocation :=
  {| callee := notifier; argument := notifierMessage |}.

(** The module state: the array [notifiers] of line 11, and what the module
    does to the outside: the [notify] calls made so far and the reasons
    given to [logger.error]. *)
Record Module : Type := {
  notifiers : list Notifier;
  invocations : list Invocation;
  logged : list Reason
}.

(** The module as loaded. *)
Definition loaded : Module :=
  {| notifiers := []; invocations := []; logged := [] |}.

(** [Promise.all(promises)], given the [order] in which the settlements of
    the promises are observed (a list of positions in the array): it is
    rejected with the reason of the first rejection observed, fulfilled when
    all promises are, and stays pending otherwise. *)
Fixpoint first_rejection (promises : list Outcome) (order : list nat) : option Reason :=
  match order with
  | [] => None
  | i :: order' =>
      match nth_error promises i with
      | Some (Rejects reason) => Some reason
      | _ => first_rejection promises order'
      end
  end.

Definition fulfils (o : Outcome) : bool :=
  match o with
  | Fulfils => true
  | _ => false
  end.

Definition Promise_all (promises : list Outcome) (order : list nat) : Promise :=
  match first_rejection promises order with
  | Some reason => rejected reason
  | None => if forallb fulfils promises then resolved else pending
  end.

(** The promise at position [j] is the first one seen to fail, with [reason]. *)
Definition first_failure (promises : list Outcome) (order : list nat) (j : nat)
    (reason : Reason) : Prop :=
  exists before after,
    order = (before ++ j :: after)%list
    /\ nth_error promises j = Some (Rejects reason)
    /\ forall k, In k before -> forall r, nth_error promises k <> Some (Rejects r).

(** Counting: the calls made on a notifier, and its entries in the array. *)
Definition calls_to (notifier : Notifier) (calls : list Invocation) : nat :=
  List.length (filter (fun c => Notifier_eqb (callee c) notifier) calls).

Definition entries (notifier : Notifier) (array : list Notifier) : nat :=
  List.length (filter (fun n => Notifier_eqb n notifier) array).

Definition enabled (env : Env) (notifier : Notifier) : bool :=
  match notifier with
  | gmail => IS_NOTIFIER_GMAIL_ENABLED env
  | telegram => IS_NOTIFIER_TELEGRAM_ENABLED env
  end.

Section Registry.

(** [Object.entries(MessageType)]: the members of the string enum of
    ../types/notifier in declaration order, names with values. *)
Variable MessageType : list (string * string).

(** The outcome of [notifier.notify(message)], which may depend on the calls
    made before it. *)
Variable notify : Notifier -> list Invocation -> Object NotifierMessage -> Outcome.

Definition Object_keys : list string := map fst MessageType.
Definition Object_values : list string := map snd MessageType.

(** [initializeNotifiers] (lines 13-20); the object it returns has the one
    member [notify: notifyAll]. *)
Definition pushed (notifier : Notifier) (m : Module) : Module :=
  {| notifiers := (notifiers m ++ [notifier])%list;
     invocations := invocations m;
     logged := logged m |}.

Definition initializeNotifiers (env : Env) (m : Module) : Module :=
  let m := if IS_NOTIFIER_GMAIL_ENABLED env then pushed gmail m else m in
  let m := if IS_NOTIFIER_TELEGRAM_ENABLED env then pushed telegram m else m in
  m.

(** The two sides of the comparison of line 26. *)
Definition rank (notifierMessage : Object NotifierMessage) : Z :=
  indexOf Object_values (messageType (fields notifierMessage)).

Definition minimum (env : Env) : Z :=
  indexOf Object_keys (toUpperCase (NOTIFIER_LEVEL env)).

(** [notifiers.map((notifier) => notifier.notify(notifierMessage))]: the
    calls are made one after the other, each returns a promise. *)
Definition invoked (notifier : Notifier) (notifierMessage : Object NotifierMessage)
    (m : Module) : Module :=
  {| notifiers := notifiers m;
     invocations := (invocations m ++ [call notifierMessage notifier])%list;
     logged := logged m |}.

Fixpoint map_notify (array : list Notifier) (notifierMessage : Object NotifierMessage)
    (m : Module) : list Outcome * Module :=
  match array with
  | [] => ([], m)
  | notifier :: rest =>
      let promise := notify notifier (invocations m) notifierMessage in
      let '(promises, m) := map_notify rest notifierMessage (invoked notifier notifierMessage m) in
      (promise :: promises, m)
  end.

Definition logger_error (reason : Reason) (m : Module) : Module :=
  {| notifiers := notifiers m;
     invocations := invocations m;
     logged := (logged m ++ [reason])%list |}.

(** [notifyAll] (lines 23-40). *)
Definition notifyAll (env : Env) (order : list nat) (notifierMessage : Object NotifierMessage)
    (m : Module) : Promise * Module :=
  if rank notifierMessage <? minimum env then
    (resolved, m)
  else
    let '(promises, m) := map_notify (notifiers m) notifierMessage m in
    match Promise_all promises order with
    | resolved => (resolved, m)
    | rejected reason => (rejected reason, logger_error reason m)
    | pending => (pending, m)
    end.

End Registry.


(** ** A reference instance of the parameters

    The closed examples below run the renderer and the registry on this
    instance. *)

(** bignumber.js values for the reference instance.  A finite value is a
    decimal [coefficient * 10^exponent]; roundings are half away from zero
    (ROUND_HALF_UP) and quotients keep 20 decimal places (DECIMAL_PLACES),
    the library's defaults. *)
Module Decimal.

Inductive t : Type :=
| NaN
| dec (coefficient exponent : Z).

(** The magnitude as a fraction [num / den]. *)
Definition num (c e : Z) : Z := if 0 <=? e then Z.abs c * 10 ^ e else Z.abs c.
Definition den (e : Z) : Z := if 0 <=? e then 1 else 10 ^ (- e).

Definition toFixed (b : t) (dp : Z) : string :=
  match b with
  | NaN => "NaN"
  | dec c e =>
      (if c <? 0 then "-" else "") ++ fixed_point (round_half_up (num c e) (den e) dp) dp
  end.

(** The exact value of a finite number. *)
Definition of_float (x : float) : t :=
  match Prim2SF x with
  | S754_zero _ => dec 0 0
  | S754_finite s m e =>
      let c := if s then Zneg m else Zpos m in
      if 0 <=? e then dec (c * 2 ^ e) 0 else dec (c * 5 ^ (- e)) e
  | _ => NaN
  end.

Definition of_Numeric (v : Numeric t) : t :=
  match v with
  | big b => b
  | number x => of_float x
  end.

(** The number nearest to [n / d] ([d > 0]; ties to even): the quotient is
    taken with more bits than a number holds, and a last bit that records a
    remainder. *)
Definition nearest (n d : Z) : float :=
  if n =? 0 then 0%float
  else
    let k := Z.max 0 (64 + Z.log2 d - Z.log2 (Z.abs n)) in
    let q := Z.abs n * 2 ^ k / d in
    let sticky := if Z.abs n * 2 ^ k mod d =? 0 then 0 else 1 in
    let m := 2 * q + sticky in
    SF2Prim (binary_normalize prec emax (if n <? 0 then - m else m) (- k - 1) false).

Definition toNumber (b : t) : float :=
  match b with
  | NaN => nan
  | dec c e => nearest (if 0 <=? e then c * 10 ^ e else c) (den e)
  end.

Definition isLessThan (b : t) (x : float) : bool :=
  match b, of_float x with
  | dec c e, dec c' e' =>
      (if 0 <=? e then c * 10 ^ e else c) * den e' <? (if 0 <=? e' then c' * 10 ^ e' else c') * den e
  | dec _ _, NaN => match Prim2SF x with S754_infinity false => true | _ => false end
  | NaN, _ => false
  end.

Definition minus (a b : t) : t :=
  match a, b with
  | dec c e, dec c' e' =>
      let m := Z.min e e' in dec (c * 10 ^ (e - m) - c' * 10 ^ (e' - m)) m
  | _, _ => NaN
  end.

Definition multipliedBy (a b : t) : t :=
  match a, b with
  | dec c e, dec c' e' => dec (c * c') (e + e')
  | _, _ => NaN
  end.

Definition dividedBy (a b : t) : t :=
  match a, b with
  | dec c e, dec c' e' =>
      if c' =? 0 then NaN
      else
        let n := Z.abs c * num 1 e * den e' in
        let d := Z.abs c' * num 1 e' * den e in
        let q := round_half_up n d 20 in
        dec (if Bool.eqb (c <? 0) (c' <? 0) then q else - q) (- 20)
  | _, _ => NaN
  end.

(** Modelled from the spec: [calculatePnL] of ../trader, the percentage
    profit or loss computed from the buy/sell price pair. *)
Definition calculatePnL (priceBuy priceSell : Numeric t) : t :=
  let priceBuy := of_Numeric priceBuy in
  let priceSell := of_Numeric priceSell in
  multipliedBy (dividedBy (minus priceSell priceBuy) priceBuy)
    (dec 100 0).

End Decimal.

(** [Number::toString] from 10^21 on: the shortest digits that read back as
    the number, the closest ones to it, in exponential notation. *)
Module Exponential.

Definition reads_back (x : float) (s shift : Z) : bool :=
  match Prim2SF (Decimal.toNumber (Decimal.dec s shift)), Prim2SF x with
  | S754_finite _ m e, S754_finite _ m' e' => Pos.eqb m m' && (e =? e')
  | _, _ => false
  end.

Definition distance (v s shift : Z) : Z := Z.abs (s * 10 ^ shift - v).

(** The [k]-digit candidates around [v], a number of [p] digits, each with
    the power of ten it is scaled by; rounding up may carry into one more
    digit. *)
Definition candidate (x : float) (v p k : Z) : option (Z * Z) :=
  let shift := p - k in
  let lo := v / 10 ^ shift in
  let hi := if lo + 1 <? 10 ^ k then (lo + 1, shift) else (10 ^ (k - 1), shift + 1) in
  let lo_ok := reads_back x lo shift in
  let hi_ok := reads_back x (fst hi) (snd hi) in
  if lo_ok && hi_ok then
    Some (if distance v (fst hi) (snd hi) <? distance v lo shift then hi else (lo, shift))
  else if lo_ok then Some (lo, shift)
  else if hi_ok then Some hi
  else None.

Fixpoint shortest (fuel : nat) (x : float) (v p k : Z) : Z * Z * Z :=
  match fuel with
  | O => (v, 0, p)
  | S fuel' =>
      match candidate x v p k with
      | Some (s, shift) => (s, shift, k)
      | None => shortest fuel' x v p (k + 1)
      end
  end.

Definition toString (x : float) : string :=
  match Prim2SF x with
  | S754_finite _ m e =>
      let v := Zpos m * 2 ^ e in
      let p := Z.of_nat (String.length (decimal v)) in
      let '(s, shift, k) := shortest 17 x v p 1 in
      let digits := decimal s in
      substring 0 1 digits
        ++ (if k =? 1 then "" else "." ++ substring 1 (Z.to_nat (k - 1)) digits)
        ++ "e+" ++ decimal (shift + k - 1)
  | _ => ""
  end.

End Exponential.

Module Reference.

(** Modelled from the spec: the members of the enums of ../types.  The
    severities are the spec's DEBUG < INFO < SUCCESS < WARN < ERROR, each
    named by its value; the signal source is the literal "signal". *)
Definition MessageType : list (string * string) :=
  [("DEBUG", "DEBUG"); ("INFO", "INFO"); ("SUCCESS", "SUCCESS");
   ("WARN", "WARN"); ("ERROR", "ERROR")].

#[export] Instance imports : Imports := {|
  BigNumber := Decimal.t;
  BigNumber_toFixed := Decimal.toFixed;
  BigNumber_isLessThan := Decimal.isLessThan;
  BigNumber_toNumber := Decimal.toNumber;
  Number_toString := Exponential.toString;
  MessageType_INFO := "INFO";
  MessageType_SUCCESS := "SUCCESS";
  PositionType_SHORT := "SHORT";
  SourceType_SIGNAL := "signal";
  calculatePnL := Decimal.calculatePnL
|}.

(** The first channel's delivery fails, the second one's succeeds. *)
Definition notify (notifier : Notifier) (_ : list Invocation)
    (_ : Object NotifierMessage) : Outcome :=
  match notifier with
  | gmail => Rejects "SMTP connection refused"
  | telegram => Fulfils
  end.

End Reference.

(** ** What the specification asks of the configured level *)

(** Modelled from the spec: the resolution of the configured level, done by
    [env()] of ./../env, which index.ts does not hold.  The configured name
    is resolved to a member of the enumeration when the configuration is
    loaded, and an unknown name is an error. *)
Definition minimum_spec (MessageType : list (string * string)) (env : Env) : Result Z :=
  let i := indexOf (Object_keys MessageType) (toUpperCase (NOTIFIER_LEVEL env)) in
  if i <? 0 then Throw ConfigurationError else Return i.



(** The specification's wording of the action clause: the trade decides it
    when there is one, then the signal. *)
Definition action_spec {BigNumber : Type} (signal : option (Signal.t BigNumber))
    (tradeOpen : option (TradeOpen.t BigNumber)) : string :=
  match tradeOpen with
  | Some tradeOpen =>
      TradeOpen.symbol tradeOpen ++ " " ++ TradeOpen.positionType tradeOpen ++ " trade."
  | None =>
      match signal with
      | Some signal =>
          Signal.entryType signal ++ " " ++ Signal.symbol signal ++ " "
            ++ Signal.positionType signal ++ " signal."
      | None => "Notification."
      end
  end.

(** ** Sample inputs *)

Module Sample.

Definition env (level : string) (short : bool) : Env :=
  {| IS_NOTIFIER_GMAIL_ENABLED := true;
     IS_NOTIFIER_TELEGRAM_ENABLED := true;
     NOTIFIER_LEVEL := level;
     IS_NOTIFIER_SHORT := short;
     MAX_WEB_PRECISION := 8 |}.

Definition message (severity : string) : Object NotifierMessage :=
  {| address := 1;
     fields := {| messageType := severity;
                  subject := severity ++ " Notification.";
                  content := severity ++ " Notification.";
                  contentHtml := "<b>Notification.</b>" |} |}.

Definition signal (score : string) : Signal.t Decimal.t :=
  {| Signal.entryType := "ENTER";
     Signal.symbol := "BTCUSDT";
     Signal.positionType := "LONG";
     Signal.strategyName := "Alpha";
     Signal.price := Some (big (Decimal.dec 4312550 (-2)));
     Signal.score := score;
     Signal.timestamp := Some (Date_at 1700000000000) |}.

(** A LONG trade on another symbol, bought at [bought] and sold [held]
    milliseconds later, with no prices and no cost recorded. *)
Definition trade (bought held : Z) : TradeOpen.t Decimal.t :=
  {| TradeOpen.symbol := "ETHUSDT";
     TradeOpen.positionType := "LONG";
     TradeOpen.strategyName := "Beta";
     TradeOpen.quantity := Some (big (Decimal.dec 2 0));
     TradeOpen.cost := None;
     TradeOpen.borrow := None;
     TradeOpen.wallet := Some "margin";
     TradeOpen.tradingType := Some "real";
     TradeOpen.priceBuy := None;
     TradeOpen.timeBuy := Some (Date_at bought);
     TradeOpen.priceSell := None;
     TradeOpen.timeSell := Some (Date_at (bought + held)) |}.

(** A SHORT trade, sold at [sold] and bought back [held] milliseconds
    later. *)
Definition short_trade (sold held : Z) : TradeOpen.t Decimal.t :=
  {| TradeOpen.symbol := "ETHUSDT";
     TradeOpen.positionType := "SHORT";
     TradeOpen.strategyName := "Beta";
     TradeOpen.quantity := Some (big (Decimal.dec 2 0));
     TradeOpen.cost := None;
     TradeOpen.borrow := None;
     TradeOpen.wallet := Some "margin";
     TradeOpen.tradingType := Some "real";
     TradeOpen.priceBuy := None;
     TradeOpen.timeBuy := Some (Date_at (sold + held));
     TradeOpen.priceSell := None;
     TradeOpen.timeSell := Some (Date_at sold) |}.

(** A LONG trade with its prices and its cost, sold 45 seconds after it was
    bought at a loss of ten percent. *)
Definition priced_trade : TradeOpen.t Decimal.t :=
  {| TradeOpen.symbol := "ETHUSDT";
     TradeOpen.positionType := "LONG";
     TradeOpen.strategyName := "Beta";
     TradeOpen.quantity := Some (big (Decimal.dec 2 0));
     TradeOpen.cost := Some (big (Decimal.dec 200 0));
     TradeOpen.borrow := None;
     TradeOpen.wallet := Some "margin";
     TradeOpen.tradingType := Some "real";
     TradeOpen.priceBuy := Some (big (Decimal.dec 100 0));
     TradeOpen.timeBuy := Some (Date_at 1700000000000);
     TradeOpen.priceSell := Some (big (Decimal.dec 90 0));
     TradeOpen.timeSell := Some (Date_at 1700000045000) |}.

(** A trade whose cost is a JavaScript number and whose buy time is an
    invalid Date. *)
Definition undated_trade : TradeOpen.t Decimal.t :=
  {| TradeOpen.symbol := "ETHUSDT";
     TradeOpen.positionType := "LONG";
     TradeOpen.strategyName := "Beta";
     TradeOpen.quantity := Some (number 2);
     TradeOpen.cost := Some (number 12.5);
     TradeOpen.borrow := None;
     TradeOpen.wallet := None;
     TradeOpen.tradingType := None;
     TradeOpen.priceBuy := None;
     TradeOpen.timeBuy := Some Invalid_Date;
     TradeOpen.priceSell := None;
     TradeOpen.timeSell := Some (Date_at 1700000045000) |}.

End Sample.

(** ** Histories of the module

    What a program does with the module over time: it initialises the
    registry and it broadcasts messages, in some order. *)

Inductive Operation : Type :=
| Initialize (env : Env)
| Broadcast (env : Env) (order : list nat) (notifierMessage : Object NotifierMessage).

Section Histories.

Variable MessageType : list (string * string).
Variable notify : Notifier -> list Invocation -> Object NotifierMessage -> Outcome.

Definition step (m : Module) (op : Operation) : Module :=
  match op with
  | Initialize env => initializeNotifiers env m
  | Broadcast env order notifierMessage =>
      snd (notifyAll MessageType notify env order notifierMessage m)
  end.

Definition run (ops : list Operation) (m : Module) : Module := fold_left step ops m.

End Histories.

Definition is_broadcast (op : Operation) : bool :=
  match op with
  | Broadcast _ _ _ => true
  | Initialize _ => false
  end.

(** The configurations under which the history initialises the registry. *)
Fixpoint initializations (ops : list Operation) : list Env :=
  match ops with
  | [] => []
  | Initialize env :: ops' => env :: initializations ops'
  | Broadcast _ _ _ :: ops' => initializations ops'
  end.

(** A signal with another score, a trade without prices and times. *)
Definition with_score {BigNumber : Type} (signal : Signal.t BigNumber) (score : string)
  : Signal.t BigNumber :=
  {| Signal.entryType := Signal.entryType signal;
     Signal.symbol := Signal.symbol signal;
     Signal.positionType := Signal.positionType signal;
     Signal.strategyName := Signal.strategyName signal;
     Signal.price := Signal.price signal;
     Signal.score := score;
     Signal.timestamp := Signal.timestamp signal |}.

Definition without_prices_and_times {BigNumber : Type} (tradeOpen : TradeOpen.t BigNumber)
  : TradeOpen.t BigNumber :=
  {| TradeOpen.symbol := TradeOpen.symbol tradeOpen;
     TradeOpen.positionType := TradeOpen.positionType tradeOpen;
     TradeOpen.strategyName := TradeOpen.strategyName tradeOpen;
     TradeOpen.quantity := TradeOpen.quantity tradeOpen;
     TradeOpen.cost := TradeOpen.cost tradeOpen;
     TradeOpen.borrow := TradeOpen.borrow tradeOpen;
     TradeOpen.wallet := TradeOpen.wallet tradeOpen;
     TradeOpen.tradingType := TradeOpen.tradingType tradeOpen;
     TradeOpen.priceBuy := None;
     TradeOpen.timeBuy := None;
     TradeOpen.priceSell := None;
     TradeOpen.timeSell := None |}.

(** * Properties *)

(** ** The built-ins on concrete inputs *)

Example trim_subject : trim "SUCCESS Notification. " = "SUCCESS Notification.".
Proof. reflexivity. Qed.

Example toUpperCase_level : toUpperCase "warn" = "WARN".
Proof. reflexivity. Qed.

Example slice_last : slice "Closed." (-1) None = "." /\ slice "Closed." 0 (Some (-1)) = "Closed".
Proof. split; reflexivity. Qed.

Example join_fragments : join ["Closed"; "45 sec"; ""] ". " = "Closed. 45 sec. ".
Proof. reflexivity. Qed.

Example indexOf_levels :
  indexOf ["INFO"; "SUCCESS"; "WARN"] "WARN" = 2 /\ indexOf ["INFO"; "SUCCESS"; "WARN"] "LOW" = -1.
Proof. split; reflexivity. Qed.

(** The leftmost match of [\.?0+$] goes: the point with the zeros after it,
    or the zeros that end an integer. *)
Example replace_trailing_zeros_samples :
  map replace_trailing_zeros ["45.0"; "1.5"; "12.000000"; "12.500"; "10.010"; "100"; "0.0"]
  = ["45"; "1.5"; "12"; "12.5"; "10.01"; "1"; "0"].
Proof. reflexivity. Qed.

Example toFixed_samples :
  map (fun x => Number_toFixed Exponential.toString x 1) [45; 1.5; 0.25; 90; -0.5; nan]%float
  = map Return ["45.0"; "1.5"; "0.3"; "90.0"; "-0.5"; "NaN"].
Proof. vm_compute. reflexivity. Qed.

Example toFixed_precision_out_of_range :
  Number_toFixed Exponential.toString 1 101 = Throw RangeError.
Proof. reflexivity. Qed.

Example toISOString_samples :
  map toISOString [Date_at 0; Date_at 1700000045000; Date_at (-1); Invalid_Date]
  = [Return "1970-01-01T00:00:00.000Z"; Return "2023-11-14T22:14:05.000Z";
     Return "1969-12-31T23:59:59.999Z"; Throw RangeError].
Proof. vm_compute. reflexivity. Qed.

(** ** The registry and the fan-out *)

Section RegistryProperties.

Variable MessageType : list (string * string).
Variable notify : Notifier -> list Invocation -> Object NotifierMessage -> Outcome.

Lemma indexOf_lower_bound (a : list string) (x : string) : -1 <= indexOf a x.
Proof.
  induction a as [|y a IH]; simpl; [lia|].
  destruct (String.eqb y x); [lia|].
  destruct (indexOf a x <? 0) eqn:E; [lia|].
  apply Z.ltb_ge in E. lia.
Qed.

Lemma indexOf_absent (a : list string) (x : string) : ~ In x a -> indexOf a x = -1.
Proof.
  induction a as [|y a IH]; simpl; intros H; [reflexivity|].
  destruct (String.eqb_spec y x) as [->|_]; [exfalso; apply H; now left|].
  rewrite IH by (intros ?; apply H; now right). reflexivity.
Qed.

Lemma indexOf_present (a : list string) (x : string) : In x a -> 0 <= indexOf a x.
Proof.
  induction a as [|y a IH]; simpl; intros H; [contradiction|].
  destruct (String.eqb_spec y x) as [->|Hne]; [lia|].
  destruct H as [H|H]; [contradiction|].
  specialize (IH H). destruct (indexOf a x <? 0) eqn:E; [apply Z.ltb_lt in E|]; lia.
Qed.

(** The map leaves the array and the log alone, returns one promise per
    entry and makes one call per entry, in the order of the array, each on
    the message it was given. *)
Lemma map_notify_effect (array : list Notifier) (msg : Object NotifierMessage) (m : Module) :
  notifiers (snd (map_notify notify array msg m)) = notifiers m
  /\ logged (snd (map_notify notify array msg m)) = logged m
  /\ invocations (snd (map_notify notify array msg m)) = (invocations m ++ map (call msg) array)%list
  /\ List.length (fst (map_notify notify array msg m)) = List.length array.
Proof.
  revert m. induction array as [|notifier rest IH]; intros m; simpl.
  - rewrite app_nil_r. auto.
  - specialize (IH (invoked notifier msg m)).
    destruct (map_notify notify rest msg (invoked notifier msg m)) as [promises m'].
    simpl in *. destruct IH as (Hn & Hl & Hi & Hlen).
    rewrite Hn, Hl, Hi, Hlen, <- app_assoc. auto.
Qed.

Lemma calls_to_map (notifier : Notifier) (msg : Object NotifierMessage) (array : list Notifier) :
  calls_to notifier (map (call msg) array) = entries notifier array.
Proof.
  unfold calls_to, entries.
  induction array as [|n array IH]; simpl; [reflexivity|].
  destruct (Notifier_eqb n notifier); simpl; now rewrite IH.
Qed.

Lemma Notifier_eqb_eq (a b : Notifier) : Notifier_eqb a b = true <-> a = b.
Proof. destruct a, b; simpl; split; congruence. Qed.

Lemma entries_absent (notifier : Notifier) (array : list Notifier) :
  ~ In notifier array -> entries notifier array = 0%nat.
Proof.
  unfold entries. induction array as [|n array IH]; simpl; intros H; [reflexivity|].
  destruct (Notifier_eqb n notifier) eqn:E.
  - apply Notifier_eqb_eq in E. exfalso. apply H. now left.
  - apply IH. intros ?. apply H. now right.
Qed.

Lemma entries_NoDup (notifier : Notifier) (array : list Notifier) :
  NoDup array -> In notifier array -> entries notifier array = 1%nat.
Proof.
  induction 1 as [|n array Hn Hnd IH]; intros Hin; [contradiction|].
  unfold entries in *. simpl.
  destruct (Notifier_eqb n notifier) eqn:E.
  - apply Notifier_eqb_eq in E. subst n. simpl. f_equal.
    now apply (entries_absent notifier array).
  - destruct Hin as [->|Hin]; [|now apply IH].
    destruct notifier; discriminate.
Qed.

Lemma notifyAll_passing (env : Env) (order : list nat) (msg : Object NotifierMessage)
    (m : Module) :
  minimum MessageType env <= rank MessageType msg ->
  notifyAll MessageType notify env order msg m =
    match Promise_all (fst (map_notify notify (notifiers m) msg m)) order with
    | rejected reason =>
        (rejected reason, logger_error reason (snd (map_notify notify (notifiers m) msg m)))
    | p => (p, snd (map_notify notify (notifiers m) msg m))
    end.
Proof.
  intros Hgate. unfold notifyAll.
  replace (rank MessageType msg <? minimum MessageType env) with false
    by (symmetry; apply Z.ltb_ge; exact Hgate).
  destruct (map_notify notify (notifiers m) msg m) as [promises m'].
  simpl. destruct (Promise_all promises order); reflexivity.
Qed.

Lemma notifyAll_invocations (env : Env) (order : list nat) (msg : Object NotifierMessage)
    (m : Module) :
  minimum MessageType env <= rank MessageType msg ->
  invocations (snd (notifyAll MessageType notify env order msg m))
  = (invocations m ++ map (call msg) (notifiers m))%list.
Proof.
  intros Hgate. rewrite (notifyAll_passing env order msg m Hgate).
  destruct (map_notify_effect (notifiers m) msg m) as (_ & _ & Hi & _).
  destruct (Promise_all _ order); simpl; exact Hi.
Qed.

Lemma first_rejection_observed (promises : list Outcome) (order : list nat) (i : nat)
    (reason : Reason) :
  nth_error promises i = Some (Rejects reason) ->
  In i order ->
  exists j reason',
    first_failure promises order j reason' /\ first_rejection promises order = Some reason'.
Proof.
  intros Hi. induction order as [|k order IH]; intros Hin; [contradiction|].
  simpl. destruct (nth_error promises k) as [[|r|]|] eqn:Hk.
  2: { exists k, r. split; [|reflexivity]. exists [], order. simpl. auto. }
  all: destruct Hin as [->|Hin]; [congruence|];
    destruct (IH Hin) as (j & r' & (before & after & -> & Hj & Hbefore) & Hfirst);
    exists j, r'; split; [|exact Hfirst];
    exists (k :: before), after; simpl; repeat split; auto;
    intros k' [<-|Hk'] r0; [congruence|now apply Hbefore].
Qed.

Lemma entries_pushed (notifier added : Notifier) (array : list Notifier) :
  entries notifier (array ++ [added])
  = (entries notifier array + if Notifier_eqb added notifier then 1 else 0)%nat.
Proof.
  unfold entries. rewrite filter_app, length_app. simpl.
  destruct (Notifier_eqb added notifier); reflexivity.
Qed.

Lemma entries_initializeNotifiers (env : Env) (notifier : Notifier) (m : Module) :
  entries notifier (notifiers (initializeNotifiers env m))
  = (entries notifier (notifiers m) + if enabled env notifier then 1 else 0)%nat.
Proof.
  unfold initializeNotifiers, enabled.
  destruct (IS_NOTIFIER_GMAIL_ENABLED env), (IS_NOTIFIER_TELEGRAM_ENABLED env), notifier;
    simpl; repeat rewrite entries_pushed; simpl; lia.
Qed.

Lemma invocations_initializeNotifiers (env : Env) (m : Module) :
  invocations (initializeNotifiers env m) = invocations m.
Proof.
  unfold initializeNotifiers.
  destruct (IS_NOTIFIER_GMAIL_ENABLED env), (IS_NOTIFIER_TELEGRAM_ENABLED env); reflexivity.
Qed.

Lemma entries_repeated (env : Env) (n : nat) (notifier : Notifier) :
  entries notifier (notifiers (Nat.iter n (initializeNotifiers env) loaded))
  = if enabled env notifier then n else 0%nat.
Proof.
  induction n as [|n IH].
  - now destruct (enabled env notifier).
  - change (Nat.iter (S n) (initializeNotifiers env) loaded)
      with (initializeNotifiers env (Nat.iter n (initializeNotifiers env) loaded)).
    rewrite entries_initializeNotifiers, IH. destruct (enabled env notifier); lia.
Qed.

Lemma invocations_repeated (env : Env) (n : nat) :
  invocations (Nat.iter n (initializeNotifiers env) loaded) = [].
Proof.
  induction n as [|n IH]; [reflexivity|].
  change (Nat.iter (S n) (initializeNotifiers env) loaded)
    with (initializeNotifiers env (Nat.iter n (initializeNotifiers env) loaded)).
  rewrite invocations_initializeNotifiers. exact IH.
Qed.

(** C1: a message whose rank among the severities is strictly below the
    configured minimum is not sent: [notifyAll] returns a resolved promise
    and leaves the module as it was, so no channel's [notify] has been
    called and nothing has been logged. *)
Theorem notifyAll_below_minimum (env : Env) (order : list nat)
    (msg : Object NotifierMessage) (m : Module) :
  rank MessageType msg < minimum MessageType env ->
  notifyAll MessageType notify env order msg m = (resolved, m)
  /\ invocations (snd (notifyAll MessageType notify env order msg m)) = invocations m.
Proof.
  intros Hlow. unfold notifyAll.
  apply Z.ltb_lt in Hlow. rewrite Hlow. split; reflexivity.
Qed.

(** C2: a message whose rank is at or above the configured minimum is
    handed to every entry of the registry: the calls that [notifyAll] makes
    are one per entry, in the order of the array, every one on the very
    object that [notifyAll] received.  A notifier is therefore called as
    often as it is entered in the registry, exactly once when the registry
    holds it once. *)
Theorem notifyAll_invokes_every_channel_once (env : Env) (order : list nat)
    (msg : Object NotifierMessage) (m : Module) :
  minimum MessageType env <= rank MessageType msg ->
  exists calls,
    invocations (snd (notifyAll MessageType notify env order msg m))
      = (invocations m ++ calls)%list
    /\ calls = map (call msg) (notifiers m)
    /\ (forall notifier, calls_to notifier calls = entries notifier (notifiers m))
    /\ (NoDup (notifiers m) ->
        forall notifier, In notifier (notifiers m) -> calls_to notifier calls = 1%nat)
    /\ Forall (fun c => argument c = msg /\ address (argument c) = address msg) calls.
Proof.
  intros Hgate. exists (map (call msg) (notifiers m)).
  split; [now apply notifyAll_invocations|].
  split; [reflexivity|].
  split; [intros notifier; apply calls_to_map|].
  split.
  - intros Hnd notifier Hin. rewrite calls_to_map. now apply entries_NoDup.
  - apply Forall_forall. intros c Hc. apply in_map_iff in Hc.
    destruct Hc as (n & <- & _). split; reflexivity.
Qed.

(** C3: when the message passes the gate and the promise of some channel is
    rejected, the promise of [notifyAll] is rejected with the reason of the
    first failure observed, and [logger.error] receives that reason, once.
    When every failing channel fails with the same reason [E] (as when one
    channel fails and the others succeed), that reason is [E]. *)
Theorem notifyAll_rejects_with_first_failure (env : Env) (order : list nat)
    (msg : Object NotifierMessage) (m : Module) (i : nat) (E : Reason) :
  minimum MessageType env <= rank MessageType msg ->
  nth_error (fst (map_notify notify (notifiers m) msg m)) i = Some (Rejects E) ->
  In i order ->
  exists j E',
    first_failure (fst (map_notify notify (notifiers m) msg m)) order j E'
    /\ fst (notifyAll MessageType notify env order msg m) = rejected E'
    /\ logged (snd (notifyAll MessageType notify env order msg m)) = (logged m ++ [E'])%list
    /\ ((forall k r, nth_error (fst (map_notify notify (notifiers m) msg m)) k
                       = Some (Rejects r) -> r = E) -> E' = E).
Proof.
  intros Hgate Hi Hin.
  destruct (first_rejection_observed _ order i E Hi Hin) as (j & E' & Hfirst & Hrej).
  exists j, E'. split; [exact Hfirst|].
  rewrite (notifyAll_passing env order msg m Hgate).
  unfold Promise_all. rewrite Hrej. simpl.
  destruct (map_notify_effect (notifiers m) msg m) as (_ & Hl & _ & _).
  rewrite Hl. repeat split.
  intros Hall. destruct Hfirst as (_ & _ & _ & Hj & _). now apply (Hall j).
Qed.

(** The gate of index.ts on its own does not tell a level that names no
    severity from one that does: the position of such a level among the
    names is -1, which no rank is below, so a message that met the gate
    under it would be handed to every entry of the registry. *)
Lemma unknown_level_passes_every_message (env : Env) (order : list nat)
    (msg : Object NotifierMessage) (m : Module) :
  ~ In (toUpperCase (NOTIFIER_LEVEL env)) (Object_keys MessageType) ->
  minimum MessageType env = -1
  /\ minimum_spec MessageType env = Throw ConfigurationError
  /\ invocations (snd (notifyAll MessageType notify env order msg m))
     = (invocations m ++ map (call msg) (notifiers m))%list.
Proof.
  intros Hunknown.
  assert (Hmin : minimum MessageType env = -1) by (now apply indexOf_absent).
  split; [exact Hmin|]. split.
  - unfold minimum_spec. fold (minimum MessageType env). now rewrite Hmin.
  - apply notifyAll_invocations. rewrite Hmin. apply indexOf_lower_bound.
Qed.




(** C10: [initializeNotifiers] pushes onto the module-level array without
    emptying it.  After [n >= 1] calls under one configuration the array
    holds every enabled channel [n] times (and a disabled one not at all),
    and one [notifyAll] that passes the gate calls [notify] on every enabled
    channel [n] times. *)
Theorem repeated_initialization_repeats_channels (env : Env) (n : nat) (order : list nat)
    (msg : Object NotifierMessage) :
  (1 <= n)%nat ->
  let m := Nat.iter n (initializeNotifiers env) loaded in
  (forall notifier,
      entries notifier (notifiers m) = if enabled env notifier then n else 0%nat)
  /\ (minimum MessageType env <= rank MessageType msg ->
      forall notifier,
        calls_to notifier (invocations (snd (notifyAll MessageType notify env order msg m)))
        = if enabled env notifier then n else 0%nat).
Proof.
  intros _ m. split; [intros notifier; apply entries_repeated|].
  intros Hgate notifier.
  rewrite (notifyAll_invocations env order msg m Hgate).
  unfold m. rewrite invocations_repeated. simpl.
  rewrite calls_to_map. apply entries_repeated.
Qed.

End RegistryProperties.

(** ** Strings *)

Lemma append_nil_r (s : string) : s ++ "" = s.
Proof. induction s as [|c s IH]; simpl; [reflexivity|now rewrite IH]. Qed.

Lemma append_assoc (a b c : string) : (a ++ b) ++ c = a ++ b ++ c.
Proof. induction a as [|x a IH]; simpl; [reflexivity|now rewrite IH]. Qed.

Lemma length_append (a b : string) :
  String.length (a ++ b) = (String.length a + String.length b)%nat.
Proof. induction a as [|x a IH]; simpl; [reflexivity|now rewrite IH]. Qed.

Lemma append_eq_l (a b : string) : a ++ b = a -> b = "".
Proof.
  intros H. apply (f_equal String.length) in H. rewrite length_append in H.
  destruct b; [reflexivity|simpl in H; lia].
Qed.

Lemma prefix_append (t b : string) : prefix t (t ++ b) = true.
Proof.
  induction t as [|c t IH]; simpl; [now destruct b|].
  destruct (ascii_dec c c); [exact IH|contradiction].
Qed.

Lemma includes_append_l (a s t : string) : includes s t = true -> includes (a ++ s) t = true.
Proof.
  intros H. induction a as [|c a IH]; simpl; [exact H|].
  rewrite IH. apply orb_true_r.
Qed.

(** A string occurs in whatever it is part of. *)
Lemma includes_middle (a t b : string) : includes (a ++ t ++ b) t = true.
Proof.
  apply includes_append_l.
  pose proof (prefix_append t b) as H.
  destruct (t ++ b) as [|c r];
    [change (prefix t "" || false = true)
    |change (prefix t (String c r) || includes r t = true)];
    rewrite H; reflexivity.
Qed.

Lemma trimStart_keeps (x : string) (c : ascii) (y : string) :
  isWhiteSpace c = false -> exists x', trimStart (x ++ String c y) = x' ++ String c y.
Proof.
  intros Hc. induction x as [|d x IH]; simpl.
  - rewrite Hc. now exists "".
  - destruct (isWhiteSpace d); [exact IH|]. now exists (String d x).
Qed.

Lemma trimEnd_keeps (s : string) (c : ascii) (z : string) :
  isWhiteSpace c = false -> exists z', trimEnd (s ++ String c z) = s ++ String c z'.
Proof.
  intros Hc. induction s as [|d s IH]; simpl.
  - destruct (trimEnd z) as [|e t]; [rewrite Hc; now exists ""|now exists (String e t)].
  - destruct IH as (z' & ->). destruct (s ++ String c z') eqn:E.
    + destruct s; discriminate.
    + rewrite <- E. now exists z'.
Qed.

(** [trim] only removes from the two ends: a part that begins and ends
    with something else than white space stays. *)
Lemma trim_keeps (x t z : string) (first last : ascii) (middle : string) :
  t = String first middle ->
  (exists init, t = init ++ String last "") ->
  isWhiteSpace first = false -> isWhiteSpace last = false ->
  exists x' z', trim (x ++ t ++ z) = x' ++ t ++ z'.
Proof.
  intros Hfirst (init & Hlast) Hf Hl. unfold trim.
  assert (Hshape : forall a b, a ++ t ++ b = (a ++ init) ++ String last b).
  { intros a b. rewrite Hlast, !append_assoc. reflexivity. }
  destruct (trimStart_keeps x first (middle ++ z) Hf) as (x' & Hstart).
  replace (x ++ t ++ z) with (x ++ String first (middle ++ z)) by (now rewrite Hfirst).
  rewrite Hstart.
  replace (x' ++ String first (middle ++ z)) with (x' ++ t ++ z) by (now rewrite Hfirst).
  rewrite Hshape.
  destruct (trimEnd_keeps (x' ++ init) last z Hl) as (z' & ->).
  exists x', z'. now rewrite Hshape.
Qed.

Lemma join_middle (before : list string) (text : string) (after : list string) (sep : string) :
  exists p q, join (before ++ text :: after) sep = p ++ text ++ q.
Proof.
  unfold join. induction before as [|b before IH]; simpl.
  - destruct after as [|a after].
    + exists "", "". now rewrite append_nil_r.
    + now exists "", (sep ++ String.concat sep (a :: after)).
  - destruct IH as (p & q & IH).
    destruct (before ++ text :: after)%list eqn:E; [now destruct before|].
    rewrite IH. exists (b ++ sep ++ p), q. now rewrite !append_assoc.
Qed.

Lemma join_separated (x : string) (rest : list string) (sep : string) :
  rest <> [] -> exists q, join (x :: rest) sep = x ++ sep ++ q.
Proof.
  unfold join. intros H. destruct rest as [|y rest]; [contradiction|].
  simpl. now eexists.
Qed.

(** ** The renderer *)

Section RendererProperties.

Context {imports : Imports}.

Local Abbreviation Signal := (Signal.t BigNumber).
Local Abbreviation TradeOpen := (TradeOpen.t BigNumber).

(** One decimal place is a valid precision, whatever the configuration. *)
Lemma format_one_decimal (env : Env) (x : float) :
  format env (of_number x) (Some 1) = Return (one_decimal x).
Proof.
  unfold format, one_decimal, Number_toFixed.
  change ((1 <? 0) || (100 <? 1)) with false. cbv iota.
  destruct (Prim2SF x); reflexivity.
Qed.

Lemma short_duration_text_returns (env : Env) (seconds : float) :
  short_duration_text env seconds = Return (duration_text seconds).
Proof.
  unfold short_duration_text, duration_text.
  destruct (seconds <=? 60)%float; [|destruct (seconds / 60 <=? 60)%float];
    rewrite format_one_decimal; reflexivity.
Qed.

(** What a message rendered in short mode is made of. *)
Lemma short_mode_inversion (env : Env) (messageType : string) (source : option string)
    (signal : option Signal) (tradeOpen : option TradeOpen) (reason : option string)
    (m : NotifierMessage) :
  IS_NOTIFIER_SHORT env = true ->
  getNotifierMessage env messageType source signal tradeOpen reason = Return m ->
  exists fragments headline,
    short_content env messageType source tradeOpen reason = Return (fragments, headline)
    /\ m = {| messageType := messageType;
              subject := base_of messageType (action_of signal tradeOpen);
              content :=
                short_strategy
                  (trim (headline ++ " " ++ join fragments ". " ++ action_of signal tradeOpen))
                  signal tradeOpen;
              contentHtml :=
                baseHtml_of messageType (action_of signal tradeOpen)
                  ++ join fragments "<br/>" |}.
Proof.
  intros Hshort H. unfold getNotifierMessage in H. rewrite Hshort in H.
  destruct (short_content env messageType source tradeOpen reason)
    as [[fragments headline]|e]; simpl in H; [|discriminate].
  injection H as <-. now exists fragments, headline.
Qed.

(** What a message rendered in verbose mode is made of. *)
Lemma verbose_mode_inversion (env : Env) (messageType : string) (source : option string)
    (signal : option Signal) (tradeOpen : option TradeOpen) (reason : option string)
    (m : NotifierMessage) :
  IS_NOTIFIER_SHORT env = false ->
  getNotifierMessage env messageType source signal tradeOpen reason = Return m ->
  exists lines,
    verbose_content env source signal tradeOpen reason = Return lines
    /\ m = {| messageType := messageType;
              subject := base_of messageType (action_of signal tradeOpen);
              content :=
                base_of messageType (action_of signal tradeOpen) ++ " " ++ join lines LF;
              contentHtml :=
                baseHtml_of messageType (action_of signal tradeOpen) ++ join lines "<br/>" |}.
Proof.
  intros Hverbose H. unfold getNotifierMessage in H. rewrite Hverbose in H.
  destruct (verbose_content env source signal tradeOpen reason) as [lines|e];
    simpl in H; [|discriminate].
  injection H as <-. now exists lines.
Qed.

Lemma short_separator_shape (content : list string) :
  short_separator content = []
  \/ exists x rest, short_separator content = (x :: rest ++ [""])%list.
Proof.
  destruct content as [|x rest]; [now left|right]. now exists x, rest.
Qed.

Lemma short_source_shape (content : list string) (source : option string) :
  exists tail, short_source content source = (content ++ tail)%list.
Proof.
  unfold short_source, push. destruct source as [s|]; [|exists []; now rewrite app_nil_r].
  destruct (truthy (Some s) && negb (s =? SourceType_SIGNAL)%string);
    [now exists [s]|exists []; now rewrite app_nil_r].
Qed.

(** In short mode a SUCCESS trade with both times has its duration among
    the fragments. *)
Lemma short_content_duration (env : Env) (source : option string) (tradeOpen : TradeOpen)
    (reason : option string) (timeBuy timeSell : Date) (fragments : list string)
    (headline : string) :
  TradeOpen.timeBuy tradeOpen = Some timeBuy ->
  TradeOpen.timeSell tradeOpen = Some timeSell ->
  short_content env MessageType_SUCCESS source (Some tradeOpen) reason
    = Return (fragments, headline) ->
  exists before after,
    fragments
    = (before ++ duration_text (duration tradeOpen timeBuy timeSell) :: after)%list.
Proof.
  intros Hbuy Hsell H. unfold short_content, short_trade in H.
  destruct (short_pnl env MessageType_SUCCESS tradeOpen (short_reason [] reason)
              MessageType_SUCCESS) as [[c1 h1]|e]; simpl in H; [|discriminate].
  destruct (short_cost env tradeOpen c1) as [c2|e]; simpl in H; [|discriminate].
  unfold short_duration in H.
  rewrite Hbuy, Hsell, String.eqb_refl, short_duration_text_returns in H. simpl in H.
  injection H as <- _.
  destruct (short_source_shape (push c2 (duration_text (duration tradeOpen timeBuy timeSell)))
              source) as (tail & ->).
  unfold push. rewrite <- app_assoc. simpl.
  exists c2, (tail ++ [""])%list.
  destruct c2; unfold short_separator, push; simpl; rewrite <- ?app_assoc; reflexivity.
Qed.

(** A fragment that begins and ends with something else than white space
    is part of the raw body. *)
Lemma raw_body_includes (headline action : string) (before after : list string)
    (text : string) (signal : option Signal) (tradeOpen : option TradeOpen)
    (first last : ascii) (middle init : string) :
  text = String first middle -> text = init ++ String last "" ->
  isWhiteSpace first = false -> isWhiteSpace last = false ->
  includes
    (short_strategy (trim (headline ++ " " ++ join (before ++ text :: after) ". " ++ action))
       signal tradeOpen) text = true.
Proof.
  intros Hfirst Hlast Hf Hl.
  destruct (join_middle before text after ". ") as (p & q & ->).
  replace (headline ++ " " ++ (p ++ text ++ q) ++ action)
    with ((headline ++ " " ++ p) ++ text ++ (q ++ action))
    by (now rewrite !append_assoc).
  destruct (trim_keeps (headline ++ " " ++ p) text (q ++ action) first last middle
              Hfirst (ex_intro _ init Hlast) Hf Hl) as (x' & z' & ->).
  unfold short_strategy.
  destruct tradeOpen as [t|]; [|destruct signal as [s|]];
    rewrite ?append_assoc; apply includes_middle.
Qed.

(** C5, as the code has it: the subject is the severity and the action,
    trimmed, and the action is taken from the signal when there is one,
    ending in "trade." when a trade is present too and in "signal."
    otherwise; from the trade when there is no signal; and is
    "Notification." when there is neither. *)
Theorem subject_action_precedence (env : Env) (messageType : string)
    (source : option string) (signal : option Signal) (tradeOpen : option TradeOpen)
    (reason : option string) (m : NotifierMessage) :
  getNotifierMessage env messageType source signal tradeOpen reason = Return m ->
  subject m
  = trim (messageType ++ " " ++
          match signal, tradeOpen with
          | Some s, Some _ =>
              Signal.entryType s ++ " " ++ Signal.symbol s ++ " "
                ++ Signal.positionType s ++ " trade."
          | Some s, None =>
              Signal.entryType s ++ " " ++ Signal.symbol s ++ " "
                ++ Signal.positionType s ++ " signal."
          | None, Some t =>
              TradeOpen.symbol t ++ " " ++ TradeOpen.positionType t ++ " trade."
          | None, None => "Notification."
          end).
Proof.
  intros H.
  assert (Hsubject : subject m = base_of messageType (action_of signal tradeOpen)).
  { destruct (IS_NOTIFIER_SHORT env) eqn:Hmode.
    - destruct (short_mode_inversion _ _ _ _ _ _ _ Hmode H) as (? & ? & _ & ->). reflexivity.
    - destruct (verbose_mode_inversion _ _ _ _ _ _ _ Hmode H) as (? & _ & ->). reflexivity. }
  rewrite Hsubject. unfold base_of, action_of, type_of.
  destruct signal, tradeOpen; reflexivity.
Qed.

(** Line 129 pushes the label and nothing else, and its conditional never
    selects "N/A": the string compared with "NA" begins with a digit. *)
Lemma score_statement_effect (content : list string) (signal : Signal) :
  score_statement content signal = ((content ++ ["score: "])%list, Signal.score signal).
Proof.
  unfold score_statement, push. f_equal.
  unfold decimal. destruct (N.to_uint _) as [|d|d|d|d|d|d|d|d|d|d]; reflexivity.
Qed.

(** In verbose mode a signal contributes four lines, the third of which is
    the bare label. *)
Lemma verbose_signal_lines (env : Env) (signal : Signal) (tradeOpen : option TradeOpen)
    (content lines : list string) :
  verbose_signal env (Some signal) tradeOpen content = Return lines ->
  exists price received,
    lines = (content ++ [("strategy: " ++ Signal.strategyName signal)%string;
                         ("signal price: " ++ price)%string;
                         "score: ";
                         ("signal received: " ++ received)%string])%list.
Proof.
  unfold verbose_signal.
  destruct (format env (of_Numeric (Signal.price signal)) None) as [price|e];
    cbn [bind]; [|discriminate].
  rewrite score_statement_effect. unfold push. cbn [fst].
  destruct (format env (of_optional of_Date (Signal.timestamp signal)) None)
    as [received|e]; simpl; [|discriminate].
  intros H. injection H as <-. exists price, received.
  now rewrite <- !app_assoc.
Qed.

(** C8, as the code has it: in short mode the raw body and the html body of
    a SUCCESS trade with both times are built from a list of fragments that
    holds the duration: sell time minus buy time, negated for a SHORT
    position, in seconds when that is at most 60, else in minutes when those
    are at most 60, else in hours, to one decimal place with trailing zeros
    and a trailing point removed.  A duration of 45 seconds is the fragment
    "45 sec", one of 5400 seconds the fragment "1.5 hr", and the raw body
    contains them. *)
Theorem short_duration_is_scaled_and_stripped (env : Env) (source : option string)
    (signal : option Signal) (tradeOpen : TradeOpen) (reason : option string)
    (timeBuy timeSell : Date) (m : NotifierMessage) :
  IS_NOTIFIER_SHORT env = true ->
  TradeOpen.timeBuy tradeOpen = Some timeBuy ->
  TradeOpen.timeSell tradeOpen = Some timeSell ->
  getNotifierMessage env MessageType_SUCCESS source signal (Some tradeOpen) reason = Return m ->
  let elapsed := (getTime timeSell - getTime timeBuy)%float in
  let seconds :=
    ((if (TradeOpen.positionType tradeOpen =? PositionType_SHORT)%string
      then 0 - elapsed else elapsed) / 1000)%float in
  let text :=
    if (seconds <=? 60)%float then one_decimal seconds ++ " sec"
    else if (seconds / 60 <=? 60)%float then one_decimal (seconds / 60) ++ " min"
    else one_decimal (seconds / 60 / 60) ++ " hr" in
  (exists before after headline,
      content m
      = short_strategy
          (trim (headline ++ " " ++ join (before ++ text :: after) ". "
                   ++ action_of signal (Some tradeOpen)))
          signal (Some tradeOpen)
      /\ contentHtml m
         = baseHtml_of MessageType_SUCCESS (action_of signal (Some tradeOpen))
             ++ join (before ++ text :: after) "<br/>")
  /\ (seconds = 45%float -> text = "45 sec" /\ includes (content m) "45 sec" = true)
  /\ (seconds = 5400%float -> text = "1.5 hr" /\ includes (content m) "1.5 hr" = true).
Proof.
  intros Hshort Hbuy Hsell H elapsed seconds text.
  destruct (short_mode_inversion _ _ _ _ _ _ _ Hshort H) as (fragments & headline & Hc & ->).
  destruct (short_content_duration _ _ _ _ _ _ _ _ Hbuy Hsell Hc) as (before & after & ->).
  change (duration_text (duration tradeOpen timeBuy timeSell)) with text.
  split; [now exists before, after, headline|].
  cbn [content]. split; intros Hseconds.
  - assert (Htext : text = "45 sec") by (unfold text; rewrite Hseconds; reflexivity).
    split; [exact Htext|]. rewrite Htext.
    now apply (raw_body_includes _ _ _ _ _ _ _ "4"%char "c"%char "5 sec" "45 se").
  - assert (Htext : text = "1.5 hr") by (unfold text; rewrite Hseconds; reflexivity).
    split; [exact Htext|]. rewrite Htext.
    now apply (raw_body_includes _ _ _ _ _ _ _ "1"%char "r"%char ".5 hr" "1.5 h").
Qed.

(** C9, as the code has it: in short mode the html body is the bold or
    coloured action followed by the fragments collected for the raw body
    (reason, profit or loss, cost, duration, source, and the empty fragment
    that closes a non-empty list), joined with "<br/>".  It is the action
    alone exactly when no fragment was collected, which is the case of an
    event without reason, without trade and without a source other than the
    signal source. *)
Theorem short_html_body (env : Env) (messageType : string) (source : option string)
    (signal : option Signal) (tradeOpen : option TradeOpen) (reason : option string)
    (m : NotifierMessage) :
  IS_NOTIFIER_SHORT env = true ->
  getNotifierMessage env messageType source signal tradeOpen reason = Return m ->
  let action := action_of signal tradeOpen in
  let variant :=
    if (messageType =? MessageType_INFO)%string then "<b>" ++ action ++ "</b>"
    else "<font color="
           ++ (if (messageType =? MessageType_SUCCESS)%string then "#008000" else "#ff0000")
           ++ "><b>" ++ messageType ++ "</b></font> " ++ action ++ " " in
  exists fragments headline,
    short_content env messageType source tradeOpen reason = Return (fragments, headline)
    /\ content m
       = short_strategy (trim (headline ++ " " ++ join fragments ". " ++ action))
           signal tradeOpen
    /\ contentHtml m = variant ++ join fragments "<br/>"
    /\ (contentHtml m = variant <-> fragments = [])
    /\ (truthy reason = false -> tradeOpen = None ->
        truthy source = false \/ source = Some SourceType_SIGNAL ->
        fragments = []).
Proof.
  intros Hshort H action variant.
  destruct (short_mode_inversion _ _ _ _ _ _ _ Hshort H) as (fragments & headline & Hc & ->).
  exists fragments, headline. simpl.
  change (baseHtml_of messageType (action_of signal tradeOpen)) with variant.
  repeat split; try assumption.
  - intros Honly. apply append_eq_l in Honly.
    unfold short_content in Hc.
    destruct (short_trade env messageType tradeOpen (short_reason [] reason) messageType)
      as [[c h]|e]; simpl in Hc; [|discriminate].
    injection Hc as <- _.
    destruct (short_separator_shape (short_source c source)) as [->|(x & rest & Hsep)];
      [reflexivity|].
    rewrite Hsep in Honly.
    destruct (join_separated x (rest ++ [""]) "<br/>") as (q & Hq);
      [now destruct rest|].
    rewrite Hq in Honly. apply (f_equal String.length) in Honly.
    rewrite !length_append in Honly. simpl in Honly. lia.
  - intros ->. apply append_nil_r.
  - intros Hreason -> Hsource. unfold short_content, short_trade, short_reason in Hc.
    simpl in Hc.
    assert (Hr : match reason with
                 | Some r =>
                     if truthy reason
                     then push [] (if (slice r (-1) None =? ".")%string
                                   then slice r 0 (Some (-1)) else r)
                     else []
                 | None => []
                 end = []).
    { destruct reason; [now rewrite Hreason|reflexivity]. }
    rewrite Hr in Hc. injection Hc as <- _.
    unfold short_source.
    destruct Hsource as [Hsource| ->].
    + destruct source; [now rewrite Hsource|reflexivity].
    + simpl. rewrite String.eqb_refl, andb_false_r. reflexivity.
Qed.

(** *** When the renderer returns

    [format] throws on a precision that [toFixed] refuses and on an invalid
    date; nothing else in the renderer throws. *)

Lemma format_returns (env : Env) (value : Scalar BigNumber) (precision : option Z) :
  0 <= match precision with Some p => p | None => MAX_WEB_PRECISION env end <= 100 ->
  value <> of_Date Invalid_Date ->
  exists s, format env value precision = Return s.
Proof.
  unfold format. set (p := match precision with Some p => p | None => _ end).
  intros Hp Hvalue.
  assert (Hlow : (p <? 0) = false) by (apply Z.ltb_ge; lia).
  destruct value as [|b|x|d|s]; try (eexists; reflexivity).
  - assert (Hhigh : (10 ^ 9 <? p) = false)
      by (apply Z.ltb_ge; change (10 ^ 9) with 1000000000; lia).
    rewrite Hlow, Hhigh. eexists; reflexivity.
  - unfold Number_toFixed.
    assert (Hhigh : (100 <? p) = false) by (apply Z.ltb_ge; lia).
    rewrite Hlow, Hhigh. destruct (Prim2SF x); eexists; reflexivity.
  - destruct d as [t|]; [|contradiction].
    unfold toISOString. destruct (civil (t / msPerDay)) as [[y mo] dd].
    eexists; reflexivity.
Qed.

Lemma of_Numeric_not_a_date (v : option (Numeric BigNumber)) (d : Date) :
  of_Numeric v <> of_Date d.
Proof. destruct v as [[b|x]|]; discriminate. Qed.

Lemma of_optional_string_not_a_date (v : option string) (d : Date) :
  of_optional (BigNumber := BigNumber) of_string v <> of_Date d.
Proof. destruct v; discriminate. Qed.

Lemma of_optional_valid_date (v : option Date) :
  v <> Some Invalid_Date -> of_optional (BigNumber := BigNumber) of_Date v <> of_Date Invalid_Date.
Proof. destruct v as [[t|]|]; simpl; congruence. Qed.

Lemma short_content_returns (env : Env) (messageType : string) (source : option string)
    (tradeOpen : option TradeOpen) (reason : option string) :
  0 <= MAX_WEB_PRECISION env <= 100 ->
  exists r, short_content env messageType source tradeOpen reason = Return r.
Proof.
  intros Hp. unfold short_content, short_trade.
  destruct tradeOpen as [t|]; cbn [bind]; [|eexists; reflexivity].
  assert (Hpnl : exists r, short_pnl env messageType t (short_reason [] reason) messageType
                           = Return r).
  { unfold short_pnl.
    destruct (TradeOpen.priceBuy t) as [pb|]; [|eexists; reflexivity].
    destruct (TradeOpen.priceSell t) as [ps|]; [|eexists; reflexivity].
    destruct (_ && _ && _); [|eexists; reflexivity].
    destruct (format_returns env (of_BigNumber (calculatePnL pb ps)) (Some 3)) as (s & ->);
      [lia|discriminate|]. eexists; reflexivity. }
  destruct Hpnl as ([c1 h1] & ->). cbn [bind].
  assert (Hcost : exists c, short_cost env t c1 = Return c).
  { unfold short_cost.
    destruct (TradeOpen.cost t) as [cost|]; [|eexists; reflexivity].
    destruct (Numeric_truthy cost); [|eexists; reflexivity].
    destruct (format_returns env (of_Numeric (Some cost)) None) as (s & ->);
      [exact Hp|apply of_Numeric_not_a_date|]. eexists; reflexivity. }
  destruct Hcost as (c2 & ->). cbn [bind].
  assert (Hduration : exists c, short_duration env messageType t c2 = Return c).
  { unfold short_duration.
    destruct (TradeOpen.timeBuy t) as [tb|]; [|eexists; reflexivity].
    destruct (TradeOpen.timeSell t) as [ts|]; [|eexists; reflexivity].
    destruct (messageType =? MessageType_SUCCESS)%string; [|eexists; reflexivity].
    rewrite short_duration_text_returns. eexists; reflexivity. }
  destruct Hduration as (c3 & ->). cbn [bind]. eexists; reflexivity.
Qed.

Lemma verbose_content_returns (env : Env) (source : option string) (signal : option Signal)
    (tradeOpen : option TradeOpen) (reason : option string) :
  0 <= MAX_WEB_PRECISION env <= 100 ->
  (forall s, signal = Some s -> Signal.timestamp s <> Some Invalid_Date) ->
  (forall t, tradeOpen = Some t ->
     TradeOpen.timeBuy t <> Some Invalid_Date /\ TradeOpen.timeSell t <> Some Invalid_Date) ->
  exists lines, verbose_content env source signal tradeOpen reason = Return lines.
Proof.
  intros Hp Hsignal Htrade. unfold verbose_content.
  set (content := match source with Some _ => _ | None => _ end). clearbody content.
  assert (Hs : exists c, verbose_signal env signal tradeOpen content = Return c).
  { unfold verbose_signal. destruct signal as [s|].
    - destruct (format_returns env (of_Numeric (Signal.price s)) None) as (p & ->);
        [exact Hp|apply of_Numeric_not_a_date|]. cbn [bind].
      destruct (format_returns env (of_optional of_Date (Signal.timestamp s)) None)
        as (r & ->); [exact Hp|apply of_optional_valid_date; now apply Hsignal|].
      eexists; reflexivity.
    - destruct tradeOpen; eexists; reflexivity. }
  destruct Hs as (c1 & ->). cbn [bind].
  assert (Ht : exists c, verbose_trade env tradeOpen c1 = Return c).
  { unfold verbose_trade. destruct tradeOpen as [t|]; [|eexists; reflexivity].
    destruct (Htrade t eq_refl) as (Hbuy & Hsell).
    repeat
      match goal with
      | |- context [format env ?v None] =>
          let s := fresh "s" in
          destruct (format_returns env v None) as (s & ->);
            [exact Hp
            |first [apply of_Numeric_not_a_date
                   |apply of_optional_string_not_a_date
                   |now apply of_optional_valid_date
                   |discriminate]
            |cbn [bind]]
      end.
    eexists; reflexivity. }
  destruct Ht as (c2 & ->). cbn [bind]. eexists; reflexivity.
Qed.

(** The renderer returns a message whenever the configured precision is one
    that [toFixed] accepts and, in verbose mode, the dates are valid. *)
Lemma getNotifierMessage_returns (env : Env) (messageType : string)
    (source : option string) (signal : option Signal) (tradeOpen : option TradeOpen)
    (reason : option string) :
  0 <= MAX_WEB_PRECISION env <= 100 ->
  (IS_NOTIFIER_SHORT env = false ->
     (forall s, signal = Some s -> Signal.timestamp s <> Some Invalid_Date)
     /\ (forall t, tradeOpen = Some t ->
           TradeOpen.timeBuy t <> Some Invalid_Date
           /\ TradeOpen.timeSell t <> Some Invalid_Date)) ->
  exists m, getNotifierMessage env messageType source signal tradeOpen reason = Return m.
Proof.
  intros Hp Hdates. unfold getNotifierMessage.
  destruct (IS_NOTIFIER_SHORT env).
  - destruct (short_content_returns env messageType source tradeOpen reason Hp)
      as ([fragments headline] & ->). cbn [bind]. eexists; reflexivity.
  - destruct (Hdates eq_refl) as (Hsignal & Htrade).
    destruct (verbose_content_returns env source signal tradeOpen reason Hp Hsignal Htrade)
      as (lines & ->). cbn [bind]. eexists; reflexivity.
Qed.

End RendererProperties.

(** * The properties at work on the reference instance *)

(** ** Registry *)

(** With the minimum at WARN, an INFO message is dropped. *)
Lemma notifyAll_below_minimum_witness :
  let env := Sample.env "warn" true in
  let m := initializeNotifiers env loaded in
  rank Reference.MessageType (Sample.message "INFO") < minimum Reference.MessageType env
  /\ notifyAll Reference.MessageType Reference.notify env [1; 0]%nat (Sample.message "INFO") m
     = (resolved, m).
Proof.
  intros env m.
  assert (H : rank Reference.MessageType (Sample.message "INFO")
              < minimum Reference.MessageType env) by (vm_compute; reflexivity).
  split; [exact H|].
  exact (proj1 (notifyAll_below_minimum Reference.MessageType Reference.notify env
                  [1; 0]%nat (Sample.message "INFO") m H)).
Defined.

(** With the minimum at INFO, a WARN message reaches both channels, once. *)
Lemma notifyAll_invokes_every_channel_once_witness :
  let env := Sample.env "info" true in
  let m := initializeNotifiers env loaded in
  let msg := Sample.message "WARN" in
  minimum Reference.MessageType env <= rank Reference.MessageType msg
  /\ invocations (snd (notifyAll Reference.MessageType Reference.notify env [1; 0]%nat msg m))
     = [call msg gmail; call msg telegram].
Proof.
  intros env m msg.
  assert (H : minimum Reference.MessageType env <= rank Reference.MessageType msg)
    by (vm_compute; discriminate).
  split; [exact H|].
  destruct (notifyAll_invokes_every_channel_once Reference.MessageType Reference.notify env
              [1; 0]%nat msg m H) as (calls & Hcalls & -> & _).
  exact Hcalls.
Defined.

(** The first channel fails, the second succeeds and settles first: the
    broadcast fails with the first channel's reason, which is logged once. *)
Lemma notifyAll_rejects_with_first_failure_witness :
  let env := Sample.env "info" true in
  let m := initializeNotifiers env loaded in
  let msg := Sample.message "WARN" in
  fst (notifyAll Reference.MessageType Reference.notify env [1; 0]%nat msg m)
    = rejected "SMTP connection refused"
  /\ logged (snd (notifyAll Reference.MessageType Reference.notify env [1; 0]%nat msg m))
     = ["SMTP connection refused"].
Proof.
  intros env m msg.
  assert (Hgate : minimum Reference.MessageType env <= rank Reference.MessageType msg)
    by (vm_compute; discriminate).
  assert (Hfails : nth_error (fst (map_notify Reference.notify (notifiers m) msg m)) 0
                   = Some (Rejects "SMTP connection refused")) by reflexivity.
  assert (Hseen : In 0%nat [1; 0]%nat) by (right; left; reflexivity).
  destruct (notifyAll_rejects_with_first_failure Reference.MessageType Reference.notify env
              [1; 0]%nat msg m 0 "SMTP connection refused" Hgate Hfails Hseen)
    as (j & E' & _ & Hpromise & Hlogged & Hsame).
  assert (HE : E' = "SMTP connection refused").
  { apply Hsame. intros [|[|[|k]]] r Hk; vm_compute in Hk; congruence. }
  rewrite HE in Hpromise, Hlogged. split; [exact Hpromise|exact Hlogged].
Defined.


(** Two initialisations: every channel is entered twice and called twice. *)
Lemma repeated_initialization_repeats_channels_witness :
  let env := Sample.env "info" true in
  let m := Nat.iter 2 (initializeNotifiers env) loaded in
  let msg := Sample.message "WARN" in
  notifiers m = [gmail; telegram; gmail; telegram]
  /\ (forall notifier,
        calls_to notifier
          (invocations (snd (notifyAll Reference.MessageType Reference.notify env
                               [1; 0]%nat msg m))) = 2%nat).
Proof.
  intros env m msg. split; [reflexivity|].
  assert (Hn : (1 <= 2)%nat) by lia.
  assert (Hgate : minimum Reference.MessageType env <= rank Reference.MessageType msg)
    by (vm_compute; discriminate).
  intros notifier.
  pose proof (repeated_initialization_repeats_channels Reference.MessageType
                Reference.notify env 2 [1; 0]%nat msg Hn) as Hrepeated.
  cbv zeta in Hrepeated. destruct Hrepeated as [_ Hcalls].
  unfold m. rewrite (Hcalls Hgate notifier).
  destruct notifier; reflexivity.
Defined.

(** ** Renderer *)

(** C5: the claim fails on the code.  For an event with a signal on BTCUSDT
    and a trade on ETHUSDT the action is taken from the signal: it is not
    the action of the specification's wording, and the trade's symbol is no
    part of the subject. *)
Lemma trade_does_not_override_signal :
  let signal := Some (Sample.signal "8") in
  let tradeOpen := Some (Sample.trade 1700000000000 45000) in
  exists m,
    getNotifierMessage (imports := Reference.imports) (Sample.env "info" true) "SUCCESS"
      None signal tradeOpen None = Return m
    /\ subject m = "SUCCESS ENTER BTCUSDT LONG trade."
    /\ action_spec signal tradeOpen = "ETHUSDT LONG trade."
    /\ subject m <> trim ("SUCCESS" ++ " " ++ action_spec signal tradeOpen)
    /\ includes (subject m) "ETHUSDT" = false.
Proof.
  intros signal tradeOpen. eexists.
  split; [vm_compute; reflexivity|].
  repeat split. vm_compute. discriminate.
Qed.

Lemma subject_action_precedence_witness :
  exists m,
    getNotifierMessage (imports := Reference.imports) (Sample.env "info" true) "SUCCESS"
      None (Some (Sample.signal "8")) (Some (Sample.trade 1700000000000 45000)) None
    = Return m
    /\ subject m = "SUCCESS ENTER BTCUSDT LONG trade.".
Proof.
  destruct (getNotifierMessage (imports := Reference.imports) (Sample.env "info" true)
              "SUCCESS" None (Some (Sample.signal "8"))
              (Some (Sample.trade 1700000000000 45000)) None) as [m|e] eqn:H;
    [|vm_compute in H; discriminate H].
  exists m. split; [reflexivity|].
  rewrite (subject_action_precedence (imports := Reference.imports) _ _ _ _ _ _ m H).
  reflexivity.
Defined.

(** C7: the code at the failing input.  In verbose mode a signal whose score
    is "NA" is rendered with the bare label on the score line; "N/A" occurs
    nowhere in the body. *)
Theorem verbose_score_line_is_bare :
  exists m,
    getNotifierMessage (imports := Reference.imports) (Sample.env "info" false) "INFO"
      None (Some (Sample.signal "NA")) None None = Return m
    /\ content m
       = "INFO ENTER BTCUSDT LONG signal. " ++ LF
           ++ "strategy: Alpha" ++ LF
           ++ "signal price: 43125.5" ++ LF
           ++ "score: " ++ LF
           ++ "signal received: 2023-11-14T22:13:20.000Z"
    /\ includes (content m) "N/A" = false
    /\ includes (contentHtml m) "N/A" = false.
Proof.
  eexists. split; [vm_compute; reflexivity|]. repeat split.
Qed.

(** C8: the claim fails on the code.  A LONG trade sold 45 seconds after it
    was bought is rendered with "45 sec"; "45.0 sec" is no part of the body.
    A SHORT trade bought back 90 seconds after it was sold, whose sell time
    minus buy time is -90 seconds, is rendered with "1.5 min".  A LONG trade
    held for 100 hours is rendered in hours, which are more than 60. *)
Lemma duration_of_45_seconds_has_no_decimal :
  (exists m,
      getNotifierMessage (imports := Reference.imports) (Sample.env "info" true) "SUCCESS"
        None None (Some (Sample.trade 1700000000000 45000)) None = Return m
      /\ content m = "SUCCESS 45 sec. ETHUSDT LONG trade. Beta."
      /\ includes (content m) "45.0 sec" = false)
  /\ (exists m,
        getNotifierMessage (imports := Reference.imports) (Sample.env "info" true) "SUCCESS"
          None None (Some (Sample.short_trade 1700000000000 90000)) None = Return m
        /\ content m = "SUCCESS 1.5 min. ETHUSDT SHORT trade. Beta.")
  /\ (exists m,
        getNotifierMessage (imports := Reference.imports) (Sample.env "info" true) "SUCCESS"
          None None (Some (Sample.trade 1700000000000 360000000)) None = Return m
        /\ content m = "SUCCESS 100 hr. ETHUSDT LONG trade. Beta.").
Proof.
  repeat split; eexists; (split; [vm_compute; reflexivity|]); repeat split.
Qed.

(** The two durations of the specification, 45 and 5400 seconds. *)
Lemma short_duration_is_scaled_and_stripped_witness :
  (exists m,
      getNotifierMessage (imports := Reference.imports) (Sample.env "info" true) "SUCCESS"
        None None (Some (Sample.trade 1700000000000 45000)) None = Return m
      /\ includes (content m) "45 sec" = true)
  /\ (exists m,
        getNotifierMessage (imports := Reference.imports) (Sample.env "info" true) "SUCCESS"
          None None (Some (Sample.trade 1700000000000 5400000)) None = Return m
        /\ includes (content m) "1.5 hr" = true).
Proof.
  split.
  - destruct (getNotifierMessage (imports := Reference.imports) (Sample.env "info" true)
                "SUCCESS" None None (Some (Sample.trade 1700000000000 45000)) None)
      as [m|e] eqn:H; [|vm_compute in H; discriminate H].
    exists m. split; [reflexivity|].
    pose proof (short_duration_is_scaled_and_stripped (imports := Reference.imports)
                  (Sample.env "info" true) None None (Sample.trade 1700000000000 45000)
                  None (Date_at 1700000000000) (Date_at (1700000000000 + 45000)) m
                  eq_refl eq_refl eq_refl H) as Hduration.
    cbv zeta in Hduration. destruct Hduration as (_ & H45 & _).
    apply H45. vm_compute. reflexivity.
  - destruct (getNotifierMessage (imports := Reference.imports) (Sample.env "info" true)
                "SUCCESS" None None (Some (Sample.trade 1700000000000 5400000)) None)
      as [m|e] eqn:H; [|vm_compute in H; discriminate H].
    exists m. split; [reflexivity|].
    pose proof (short_duration_is_scaled_and_stripped (imports := Reference.imports)
                  (Sample.env "info" true) None None (Sample.trade 1700000000000 5400000)
                  None (Date_at 1700000000000) (Date_at (1700000000000 + 5400000)) m
                  eq_refl eq_refl eq_refl H) as Hduration.
    cbv zeta in Hduration. destruct Hduration as (_ & _ & H5400).
    apply H5400. vm_compute. reflexivity.
Defined.

(** C9: the claim fails on the code.  In short mode a bare notice with the
    reason "Stopped." has the reason in its html body, after the bold
    action. *)
Lemma short_html_body_holds_the_reason :
  exists m,
    getNotifierMessage (imports := Reference.imports) (Sample.env "info" true) "INFO"
      None None None (Some "Stopped.") = Return m
    /\ contentHtml m = "<b>Notification.</b>Stopped<br/>"
    /\ contentHtml m <> "<b>Notification.</b>"
    /\ includes (contentHtml m) "Stopped" = true.
Proof.
  eexists. split; [vm_compute; reflexivity|]. repeat split. discriminate.
Qed.

Lemma short_html_body_witness :
  exists m,
    getNotifierMessage (imports := Reference.imports) (Sample.env "info" true) "SUCCESS"
      (Some "manual") None (Some (Sample.trade 1700000000000 45000)) (Some "Closed.")
    = Return m
    /\ contentHtml m
       = "<font color=#008000><b>SUCCESS</b></font> ETHUSDT LONG trade. "
           ++ join ["Closed"; "45 sec"; "manual"; ""] "<br/>".
Proof.
  destruct (getNotifierMessage (imports := Reference.imports) (Sample.env "info" true)
              "SUCCESS" (Some "manual") None (Some (Sample.trade 1700000000000 45000))
              (Some "Closed.")) as [m|e] eqn:H; [|vm_compute in H; discriminate H].
  exists m. split; [reflexivity|].
  destruct (short_html_body (imports := Reference.imports) (Sample.env "info" true)
              "SUCCESS" (Some "manual") None (Some (Sample.trade 1700000000000 45000))
              (Some "Closed.") m eq_refl H)
    as (fragments & headline & Hcontent & _ & Hhtml & _).
  vm_compute in Hcontent. injection Hcontent as <- _. rewrite Hhtml. reflexivity.
Defined.

(** * Further properties of the code *)

(** ** [format]: the zeros that go *)

Lemma all_zeros_head (d : ascii) (s : string) :
  all_zeros (String d s)
  = if Ascii.eqb d "0" then match s with EmptyString => true | _ => all_zeros s end
    else false.
Proof.
  destruct d as [[] [] [] [] [] [] [] []]; destruct s; reflexivity.
Qed.

Lemma all_zeros_zeros (k : nat) : all_zeros (zeros (S k)) = true.
Proof.
  induction k as [|k IH]; [reflexivity|].
  change (zeros (S (S k))) with (String "0" (zeros (S k))).
  rewrite all_zeros_head. simpl Ascii.eqb. cbv iota.
  change (zeros (S k)) with (String "0" (zeros k)) at 1. exact IH.
Qed.

Lemma all_zeros_interrupted (a : string) (d : ascii) (b : string) :
  d <> "0"%char -> all_zeros (a ++ String d b) = false.
Proof.
  intros Hd. induction a as [|c a IH]; simpl append.
  - rewrite all_zeros_head. apply Ascii.eqb_neq in Hd. now rewrite Hd.
  - rewrite all_zeros_head. destruct (Ascii.eqb c "0"); [|reflexivity].
    destruct (a ++ String d b) eqn:E; [now destruct a|exact IH].
Qed.

Lemma matches_here_interrupted (c : ascii) (a : string) (d : ascii) (b : string) :
  d <> "0"%char -> matches_here (String c (a ++ String d b)) = false.
Proof.
  intros Hd.
  assert (H1 : all_zeros (a ++ String d b) = false) by now apply all_zeros_interrupted.
  assert (H2 : all_zeros (String c (a ++ String d b)) = false)
    by now apply (all_zeros_interrupted (String c a)).
  unfold matches_here.
  destruct c as [[] [] [] [] [] [] [] []]; first [exact H1|exact H2].
Qed.

Lemma replace_trailing_zeros_zeros (k : nat) : replace_trailing_zeros (zeros k) = "".
Proof.
  destruct k as [|k]; [reflexivity|].
  change (zeros (S k)) with (String "0" (zeros k)).
  cbn [replace_trailing_zeros].
  replace (matches_here (String "0" (zeros k))) with true; [reflexivity|].
  symmetry. exact (all_zeros_zeros k).
Qed.

(** X1: what [replace(/\.?0+$/, "")] of line 170 removes.  A point followed
    by zeros only goes with the zeros, whatever stands before it; zeros
    that follow another character than a zero or a point go, also in a
    string without a point (so "100" loses its two zeros, and a string of
    zeros comes out empty); a string that does not end in a zero stays as it
    is. *)
Theorem replace_trailing_zeros_removes :
  (forall p k, replace_trailing_zeros (p ++ "." ++ zeros (S k)) = p)
  /\ (forall p d k, d <> "0"%char -> d <> "."%char ->
        replace_trailing_zeros (p ++ String d (zeros k)) = p ++ String d "")
  /\ (forall k, replace_trailing_zeros (zeros k) = "")
  /\ (forall p d, d <> "0"%char ->
        replace_trailing_zeros (p ++ String d "") = p ++ String d "").
Proof.
  repeat split.
  - intros p k. induction p as [|c p IH].
    + change ("" ++ "." ++ zeros (S k)) with (String "." (zeros (S k))).
      cbn [replace_trailing_zeros].
      replace (matches_here (String "." (zeros (S k)))) with true; [reflexivity|].
      symmetry. exact (all_zeros_zeros k).
    + change (String c p ++ "." ++ zeros (S k)) with (String c (p ++ String "." (zeros (S k)))).
      cbn [replace_trailing_zeros].
      rewrite matches_here_interrupted by discriminate.
      f_equal. exact IH.
  - intros p d k Hzero Hpoint. induction p as [|c p IH].
    + change ("" ++ String d (zeros k)) with (String d ("" ++ zeros k)).
      cbn [replace_trailing_zeros].
      replace (matches_here (String d ("" ++ zeros k))) with false.
      * simpl append. now rewrite replace_trailing_zeros_zeros.
      * symmetry. unfold matches_here. simpl append.
        assert (H : all_zeros (String d (zeros k)) = false)
          by (rewrite all_zeros_head; apply Ascii.eqb_neq in Hzero; now rewrite Hzero).
        destruct d as [[] [] [] [] [] [] [] []]; first [exact H|now elim Hpoint].
    + change (String c p ++ String d (zeros k)) with (String c (p ++ String d (zeros k))).
      cbn [replace_trailing_zeros].
      rewrite matches_here_interrupted by exact Hzero.
      simpl append. f_equal. exact IH.
  - exact replace_trailing_zeros_zeros.
  - intros p d Hzero. induction p as [|c p IH].
    + simpl append. cbn [replace_trailing_zeros].
      replace (matches_here (String d "")) with false; [reflexivity|].
      symmetry. unfold matches_here.
      assert (H : all_zeros (String d "") = false)
        by (rewrite all_zeros_head; apply Ascii.eqb_neq in Hzero; now rewrite Hzero).
      destruct d as [[] [] [] [] [] [] [] []]; first [exact H|reflexivity].
    + change (String c p ++ String d "") with (String c (p ++ String d "")).
      cbn [replace_trailing_zeros].
      rewrite matches_here_interrupted by exact Hzero.
      simpl append. f_equal. exact IH.
Qed.

Lemma replace_trailing_zeros_removes_witness :
  replace_trailing_zeros "12.000000" = "12"
  /\ replace_trailing_zeros "12.500" = "12.5"
  /\ replace_trailing_zeros "100" = "1"
  /\ replace_trailing_zeros "0" = ""
  /\ replace_trailing_zeros "12.5" = "12.5".
Proof.
  destruct replace_trailing_zeros_removes as (Hpoint & Hzeros & Hall & Hstays).
  split; [|split; [|split; [|split]]].
  - exact (Hpoint "12" 5%nat).
  - apply (Hzeros "12." "5"%char 2%nat); discriminate.
  - apply (Hzeros "" "1"%char 2%nat); discriminate.
  - exact (Hall 1%nat).
  - apply (Hstays "12." "5"%char); discriminate.
Defined.

(** ** The fan-out *)

Section FanOut.

Variable MessageType : list (string * string).
Variable notify : Notifier -> list Invocation -> Object NotifierMessage -> Outcome.

Lemma first_rejection_none (promises : list Outcome) (order : list nat) :
  Forall (fun o => o = Fulfils) promises -> first_rejection promises order = None.
Proof.
  intros Hall. induction order as [|i order IH]; [reflexivity|]. simpl.
  destruct (nth_error promises i) as [o|] eqn:Hi; [|exact IH].
  apply nth_error_In in Hi. rewrite Forall_forall in Hall.
  rewrite (Hall o Hi). exact IH.
Qed.

Lemma forallb_fulfils (promises : list Outcome) :
  forallb fulfils promises = true <-> Forall (fun o => o = Fulfils) promises.
Proof.
  rewrite forallb_forall, Forall_forall. split; intros H o Ho.
  - specialize (H o Ho). now destruct o.
  - now rewrite (H o Ho).
Qed.

(** X2: how a broadcast that passes the gate ends.  The promise of
    [notifyAll] is fulfilled exactly when the promise of every channel is;
    it is rejected with a reason exactly when that reason is the first
    rejection observed; in every other case it stays pending.  The logger
    receives the reason of a rejection and nothing in the other cases. *)
Theorem notifyAll_outcome (env : Env) (order : list nat) (msg : Object NotifierMessage)
    (m : Module) :
  minimum MessageType env <= rank MessageType msg ->
  let promises := fst (map_notify notify (notifiers m) msg m) in
  let result := notifyAll MessageType notify env order msg m in
  (fst result = resolved <-> Forall (fun o => o = Fulfils) promises)
  /\ (forall reason,
        fst result = rejected reason <-> first_rejection promises order = Some reason)
  /\ (fst result = pending <->
        first_rejection promises order = None /\ forallb fulfils promises = false)
  /\ logged (snd result)
     = match fst result with
       | rejected reason => (logged m ++ [reason])%list
       | _ => logged m
       end.
Proof.
  intros Hgate promises result. unfold result.
  rewrite (notifyAll_passing MessageType notify env order msg m Hgate).
  fold promises.
  destruct (map_notify_effect notify (notifiers m) msg m) as (_ & Hlogged & _ & _).
  unfold Promise_all.
  destruct (first_rejection promises order) as [r|] eqn:Hfirst.
  - cbn [fst snd logger_error logged]. rewrite Hlogged. repeat split; try discriminate.
    + intros Hall. now rewrite (first_rejection_none promises order Hall) in Hfirst.
    + intros H. injection H as ->. reflexivity.
    + intros H. injection H as ->. reflexivity.
    + intros [H _]. discriminate H.
  - destruct (forallb fulfils promises) eqn:Hall; cbn [fst snd]; rewrite Hlogged;
      repeat split; try discriminate; try reflexivity.
    + intros _. now apply forallb_fulfils.
    + intros [_ H]. discriminate H.
    + intros H. apply forallb_fulfils in H. congruence.
Qed.

Lemma first_rejection_nil (order : list nat) : first_rejection [] order = None.
Proof.
  induction order as [|i order IH]; [reflexivity|]. simpl.
  now destruct i.
Qed.

(** X3: with no notifier in the registry (the module was never initialised,
    or no channel is enabled) every broadcast succeeds and does nothing,
    whatever the severity and the configured level. *)
Theorem notifyAll_on_empty_registry (env : Env) (order : list nat)
    (msg : Object NotifierMessage) (m : Module) :
  (notifiers m = [] -> notifyAll MessageType notify env order msg m = (resolved, m))
  /\ (IS_NOTIFIER_GMAIL_ENABLED env = false -> IS_NOTIFIER_TELEGRAM_ENABLED env = false ->
      notifyAll MessageType notify env order msg (initializeNotifiers env loaded)
      = (resolved, loaded)).
Proof.
  assert (Hempty : forall m', notifiers m' = [] ->
            notifyAll MessageType notify env order msg m' = (resolved, m')).
  { intros m' Hnone. unfold notifyAll.
    destruct (rank MessageType msg <? minimum MessageType env); [reflexivity|].
    rewrite Hnone. simpl. unfold Promise_all.
    now rewrite first_rejection_nil. }
  split; [apply Hempty|].
  intros Hgmail Htelegram. unfold initializeNotifiers. rewrite Hgmail, Htelegram.
  now apply Hempty.
Qed.

Lemma upper_idempotent (c : ascii) : upper (upper c) = upper c.
Proof. destruct c as [[] [] [] [] [] [] [] []]; reflexivity. Qed.

Lemma toUpperCase_idempotent (s : string) : toUpperCase (toUpperCase s) = toUpperCase s.
Proof.
  induction s as [|c s IH]; simpl; [reflexivity|].
  now rewrite upper_idempotent, IH.
Qed.

(** X4: of the configuration, a broadcast reads the level and nothing
    else, and the level without regard to the case of its letters: two
    configurations whose levels are the same once in upper case give the
    same broadcast, and a level is as good as its upper case. *)
Theorem notifyAll_level_case_insensitive (env1 env2 : Env) (order : list nat)
    (msg : Object NotifierMessage) (m : Module) :
  (toUpperCase (NOTIFIER_LEVEL env1) = toUpperCase (NOTIFIER_LEVEL env2) ->
   notifyAll MessageType notify env1 order msg m
   = notifyAll MessageType notify env2 order msg m)
  /\ (NOTIFIER_LEVEL env2 = toUpperCase (NOTIFIER_LEVEL env1) ->
      notifyAll MessageType notify env1 order msg m
      = notifyAll MessageType notify env2 order msg m).
Proof.
  assert (Hsame : toUpperCase (NOTIFIER_LEVEL env1) = toUpperCase (NOTIFIER_LEVEL env2) ->
            notifyAll MessageType notify env1 order msg m
            = notifyAll MessageType notify env2 order msg m).
  { intros H. unfold notifyAll, minimum. now rewrite H. }
  split; [exact Hsame|].
  intros H. apply Hsame. now rewrite H, toUpperCase_idempotent.
Qed.

Lemma indexOf_nth (a : list string) (i : nat) (x : string) :
  NoDup a -> nth_error a i = Some x -> indexOf a x = Z.of_nat i.
Proof.
  intros Hnd. revert i. induction Hnd as [|y a Hy Hnd IH]; intros i Hi.
  - now destruct i.
  - destruct i as [|i]; simpl in Hi.
    + injection Hi as ->. simpl. now rewrite String.eqb_refl.
    + simpl. destruct (String.eqb_spec y x) as [->|_].
      * exfalso. apply Hy. eapply nth_error_In. exact Hi.
      * rewrite (IH i Hi). destruct (Z.of_nat i <? 0) eqn:E; [apply Z.ltb_lt in E|]; lia.
Qed.

(** X5: the severities are ordered as the enum declares them.  When the
    names and the values of the enum are without repetition, a message
    whose severity is the value of the [i]-th member, under a level that in
    upper case is the name of the [j]-th member, is dropped when [i < j]
    and handed to every notifier of the registry otherwise. *)
Theorem notifyAll_follows_declaration_order (env : Env) (order : list nat)
    (msg : Object NotifierMessage) (m : Module) (i j : nat) (ki vi kj vj : string) :
  NoDup (Object_keys MessageType) ->
  NoDup (Object_values MessageType) ->
  nth_error MessageType i = Some (ki, vi) ->
  nth_error MessageType j = Some (kj, vj) ->
  messageType (fields msg) = vi ->
  toUpperCase (NOTIFIER_LEVEL env) = kj ->
  invocations (snd (notifyAll MessageType notify env order msg m))
  = if (i <? j)%nat then invocations m
    else (invocations m ++ map (call msg) (notifiers m))%list.
Proof.
  intros Hkeys Hvalues Hi Hj Htype Hlevel.
  assert (Hrank : rank MessageType msg = Z.of_nat i).
  { unfold rank. rewrite Htype. apply indexOf_nth; [exact Hvalues|].
    unfold Object_values. now rewrite nth_error_map, Hi. }
  assert (Hmin : minimum MessageType env = Z.of_nat j).
  { unfold minimum. rewrite Hlevel. apply indexOf_nth; [exact Hkeys|].
    unfold Object_keys. now rewrite nth_error_map, Hj. }
  destruct (i <? j)%nat eqn:E.
  - apply Nat.ltb_lt in E. unfold notifyAll.
    replace (rank MessageType msg <? minimum MessageType env) with true; [reflexivity|].
    symmetry. apply Z.ltb_lt. lia.
  - apply Nat.ltb_ge in E.
    apply notifyAll_invocations. lia.
Qed.

End FanOut.

(** ** Histories *)

Section HistoryProperties.

Variable MessageType : list (string * string).
Variable notify : Notifier -> list Invocation -> Object NotifierMessage -> Outcome.

(** X6: a message whose severity is no value of the enum has rank -1: under
    any level that names a severity it is dropped, and no channel is
    called. *)
Theorem notifyAll_drops_unknown_severity (env : Env) (order : list nat)
    (msg : Object NotifierMessage) (m : Module) :
  ~ In (messageType (fields msg)) (Object_values MessageType) ->
  In (toUpperCase (NOTIFIER_LEVEL env)) (Object_keys MessageType) ->
  rank MessageType msg = -1
  /\ notifyAll MessageType notify env order msg m = (resolved, m).
Proof.
  intros Hunknown Hlevel.
  assert (Hrank : rank MessageType msg = -1) by now apply indexOf_absent.
  split; [exact Hrank|].
  pose proof (indexOf_present _ _ Hlevel) as Hmin. fold (minimum MessageType env) in Hmin.
  unfold notifyAll.
  replace (rank MessageType msg <? minimum MessageType env) with true; [reflexivity|].
  symmetry. apply Z.ltb_lt. lia.
Qed.

(** What one broadcast does to the module, whether it passes the gate or
    not. *)
Lemma notifyAll_effect (env : Env) (order : list nat) (msg : Object NotifierMessage)
    (m : Module) :
  let m' := snd (notifyAll MessageType notify env order msg m) in
  notifiers m' = notifiers m
  /\ (exists calls,
        invocations m' = (invocations m ++ calls)%list
        /\ Forall (fun c => In (callee c) (notifiers m)) calls)
  /\ (exists reasons,
        logged m' = (logged m ++ reasons)%list /\ (List.length reasons <= 1)%nat).
Proof.
  unfold notifyAll.
  destruct (rank MessageType msg <? minimum MessageType env).
  - cbn [snd]. split; [reflexivity|]. split.
    + exists []. now rewrite app_nil_r.
    + exists []. rewrite app_nil_r. simpl. auto.
  - destruct (map_notify_effect notify (notifiers m) msg m) as (Hn & Hl & Hi & _).
    destruct (map_notify notify (notifiers m) msg m) as [promises m1].
    cbn [fst snd] in *.
    assert (Hcalls : Forall (fun c => In (callee c) (notifiers m))
                       (map (call msg) (notifiers m))).
    { apply Forall_forall. intros c Hc. apply in_map_iff in Hc.
      destruct Hc as (n & <- & Hin). exact Hin. }
    destruct (Promise_all promises order) as [|r|]; cbn [snd logger_error notifiers
      invocations logged]; rewrite ?Hn, ?Hl, ?Hi.
    + split; [reflexivity|]. split; [now eexists|].
      exists []. rewrite app_nil_r. simpl. auto.
    + split; [reflexivity|]. split; [now eexists|].
      exists [r]. simpl. auto.
    + split; [reflexivity|]. split; [now eexists|].
      exists []. rewrite app_nil_r. simpl. auto.
Qed.

Lemma initializeNotifiers_effect (env : Env) (m : Module) :
  (exists added,
      notifiers (initializeNotifiers env m) = (notifiers m ++ added)%list
      /\ Forall (fun n => enabled env n = true) added)
  /\ invocations (initializeNotifiers env m) = invocations m
  /\ logged (initializeNotifiers env m) = logged m.
Proof.
  unfold initializeNotifiers.
  destruct (IS_NOTIFIER_GMAIL_ENABLED env) eqn:Hg, (IS_NOTIFIER_TELEGRAM_ENABLED env) eqn:Ht;
    cbn [pushed notifiers invocations logged]; (split; [|split; reflexivity]).
  - exists [gmail; telegram]. rewrite <- app_assoc. split; [reflexivity|].
    repeat constructor; assumption.
  - exists [gmail]. split; [reflexivity|]. repeat constructor; assumption.
  - exists [telegram]. split; [reflexivity|]. repeat constructor; assumption.
  - exists []. rewrite app_nil_r. split; [reflexivity|constructor].
Qed.

(** What a history does to the module. *)
Lemma run_effect (ops : list Operation) (m : Module) :
  let m' := run MessageType notify ops m in
  (exists added,
      notifiers m' = (notifiers m ++ added)%list
      /\ Forall (fun n => exists env, In env (initializations ops) /\ enabled env n = true)
           added)
  /\ (exists calls,
        invocations m' = (invocations m ++ calls)%list
        /\ Forall (fun c => In (callee c) (notifiers m')) calls)
  /\ (exists reasons,
        logged m' = (logged m ++ reasons)%list
        /\ (List.length reasons <= List.length (filter is_broadcast ops))%nat).
Proof.
  revert m. induction ops as [|op ops IH]; intros m; cbn zeta.
  - simpl. repeat split.
    + exists []. rewrite app_nil_r. split; [reflexivity|constructor].
    + exists []. rewrite app_nil_r. split; [reflexivity|constructor].
    + exists []. rewrite app_nil_r. split; [reflexivity|simpl; lia].
  - change (run MessageType notify (op :: ops) m)
      with (run MessageType notify ops (step MessageType notify m op)).
    specialize (IH (step MessageType notify m op)). cbn zeta in IH.
    destruct IH as ((added' & Hn' & Hadded') & (calls' & Hi' & Hcalls')
                    & (reasons' & Hl' & Hreasons')).
    set (m' := run MessageType notify ops (step MessageType notify m op)) in *.
    destruct op as [env|env order msg]; cbn [step] in *.
    + destruct (initializeNotifiers_effect env m) as ((added & Hn & Hadded) & Hi & Hl).
      rewrite Hn in Hn'. rewrite Hi in Hi'. rewrite Hl in Hl'.
      repeat split.
      * exists (added ++ added')%list. rewrite app_assoc. split; [exact Hn'|].
        apply Forall_app. split.
        -- eapply Forall_impl; [|exact Hadded]. intros n Hen. exists env.
           split; [now left|exact Hen].
        -- eapply Forall_impl; [|exact Hadded']. intros n (env' & Hin & Hen).
           exists env'. split; [now right|exact Hen].
      * exists calls'. split; [exact Hi'|exact Hcalls'].
      * exists reasons'. split; [exact Hl'|exact Hreasons'].
    + pose proof (notifyAll_effect env order msg m) as Heffect. cbn zeta in Heffect.
      destruct Heffect as (Hn & (calls & Hi & Hcalls) & (reasons & Hl & Hreasons)).
      rewrite Hn in Hn'. rewrite Hi in Hi'. rewrite Hl in Hl'.
      repeat split.
      * exists added'. split; [exact Hn'|]. exact Hadded'.
      * exists (calls ++ calls')%list. rewrite app_assoc. split; [exact Hi'|].
        apply Forall_app. split; [|exact Hcalls'].
        eapply Forall_impl; [|exact Hcalls]. intros c Hc. rewrite Hn'.
        apply in_or_app. now left.
      * exists (reasons ++ reasons')%list. rewrite app_assoc. split; [exact Hl'|].
        rewrite length_app. simpl. lia.
Qed.

(** X7: over any history of initialisations and broadcasts the registry
    only grows, every call that is made is made on a notifier of the
    registry, and the logger receives at most one reason per broadcast. *)
Theorem history_invariants (ops : list Operation) (m : Module) :
  let m' := run MessageType notify ops m in
  (exists added, notifiers m' = (notifiers m ++ added)%list)
  /\ (exists calls,
        invocations m' = (invocations m ++ calls)%list
        /\ Forall (fun c => In (callee c) (notifiers m')) calls)
  /\ (exists reasons,
        logged m' = (logged m ++ reasons)%list
        /\ (List.length reasons <= List.length (filter is_broadcast ops))%nat).
Proof.
  pose proof (run_effect ops m) as H. cbn zeta in *.
  destruct H as ((added & Hn & _) & Hcalls & Hlogged).
  split; [now exists added|]. split; assumption.
Qed.

(** X8: a channel that no initialisation of a history enables is never
    called: starting from the module as loaded, every call of the history
    is on a notifier that some initialisation found enabled. *)
Theorem disabled_channel_is_never_called (ops : list Operation) (notifier : Notifier) :
  (forall env, In env (initializations ops) -> enabled env notifier = false) ->
  calls_to notifier (invocations (run MessageType notify ops loaded)) = 0%nat
  /\ entries notifier (notifiers (run MessageType notify ops loaded)) = 0%nat.
Proof.
  intros Hdisabled.
  pose proof (run_effect ops loaded) as H. cbn zeta in H.
  destruct H as ((added & Hn & Hadded) & (calls & Hi & Hcalls) & _).
  simpl in Hn, Hi. rewrite Hi.
  assert (Habsent : ~ In notifier (notifiers (run MessageType notify ops loaded))).
  { rewrite Hn. intros Hin. rewrite Forall_forall in Hadded.
    destruct (Hadded notifier Hin) as (env & Henv & Hen).
    rewrite (Hdisabled env Henv) in Hen. discriminate. }
  split; [|now apply entries_absent].
  unfold calls_to. rewrite Forall_forall in Hcalls. clear Hi.
  induction calls as [|c calls IH]; [reflexivity|]. simpl.
  destruct (Notifier_eqb (callee c) notifier) eqn:E.
  - apply Notifier_eqb_eq in E. exfalso. apply Habsent. rewrite <- E.
    apply Hcalls. now left.
  - apply IH. intros c' Hc'. apply Hcalls. now right.
Qed.

End HistoryProperties.

(** ** The renderer *)

Section RendererFurther.

Context {imports : Imports}.

Local Abbreviation Signal := (Signal.t BigNumber).
Local Abbreviation TradeOpen := (TradeOpen.t BigNumber).

(** X9: the score of a signal is never rendered.  In neither mode does any
    field of the message depend on it: a signal with another score gives the
    same result. *)
Theorem score_is_never_rendered (env : Env) (messageType : string) (source : option string)
    (signal : Signal) (score : string) (tradeOpen : option TradeOpen)
    (reason : option string) :
  getNotifierMessage env messageType source (Some (with_score signal score)) tradeOpen reason
  = getNotifierMessage env messageType source (Some signal) tradeOpen reason.
Proof.
  assert (Hlines : forall content,
             verbose_signal env (Some (with_score signal score)) tradeOpen content
             = verbose_signal env (Some signal) tradeOpen content).
  { intros content. unfold verbose_signal. cbn [with_score Signal.strategyName Signal.price
      Signal.timestamp].
    destruct (format env (of_Numeric (Signal.price signal)) None); cbn [bind]; [|reflexivity].
    now rewrite !score_statement_effect. }
  unfold getNotifierMessage.
  change (action_of (Some (with_score signal score)) tradeOpen)
    with (action_of (Some signal) tradeOpen).
  destruct (IS_NOTIFIER_SHORT env).
  - destruct (short_content env messageType source tradeOpen reason) as [[c h]|e];
      cbn [bind]; [|reflexivity].
    destruct tradeOpen; reflexivity.
  - unfold verbose_content. now rewrite Hlines.
Qed.

Lemma short_source_signal (content : list string) :
  short_source content (Some SourceType_SIGNAL) = content.
Proof.
  unfold short_source. rewrite String.eqb_refl, andb_false_r. reflexivity.
Qed.

(** X10: an empty string is as good as none.  In both modes an empty reason
    renders as no reason and an empty source as no source; in short mode the
    signal source is not shown either. *)
Theorem empty_inputs_are_absent (env : Env) (messageType : string) (source : option string)
    (signal : option Signal) (tradeOpen : option TradeOpen) (reason : option string) :
  getNotifierMessage env messageType source signal tradeOpen (Some "")
  = getNotifierMessage env messageType source signal tradeOpen None
  /\ getNotifierMessage env messageType (Some "") signal tradeOpen reason
     = getNotifierMessage env messageType None signal tradeOpen reason
  /\ (IS_NOTIFIER_SHORT env = true ->
      getNotifierMessage env messageType (Some SourceType_SIGNAL) signal tradeOpen reason
      = getNotifierMessage env messageType None signal tradeOpen reason).
Proof.
  split; [reflexivity|]. split; [reflexivity|].
  intros Hshort. unfold getNotifierMessage. rewrite Hshort. unfold short_content.
  destruct (short_trade env messageType tradeOpen (short_reason [] reason) messageType)
    as [[c h]|e]; cbn [bind]; [|reflexivity].
  now rewrite short_source_signal.
Qed.








Lemma trimEnd_ends (init : string) (d : ascii) :
  isWhiteSpace d = false -> trimEnd (init ++ String d "") = init ++ String d "".
Proof.
  intros Hd. induction init as [|c init IH]; simpl.
  - now rewrite Hd.
  - rewrite IH. now destruct (init ++ String d "") eqn:E; [destruct init|].
Qed.

Lemma trimStart_idempotent (s : string) : trimStart (trimStart s) = trimStart s.
Proof.
  induction s as [|c s IH]; simpl; [reflexivity|].
  destruct (isWhiteSpace c) eqn:E; [exact IH|]. simpl. now rewrite E.
Qed.

(** [trim] leaves alone a string that begins and ends with something else
    than white space. *)
Lemma trim_identity (c d : ascii) (rest init : string) :
  isWhiteSpace c = false -> isWhiteSpace d = false ->
  String c rest = init ++ String d "" ->
  trim (String c rest) = String c rest.
Proof.
  intros Hc Hd Hshape. unfold trim. simpl trimStart. rewrite Hc, Hshape.
  now apply trimEnd_ends.
Qed.

(** Whatever the event, the action ends in a full stop. *)
Lemma action_ends_with_full_stop (signal : option Signal) (tradeOpen : option TradeOpen) :
  exists a, action_of signal tradeOpen = a ++ ".".
Proof.
  unfold action_of. destruct signal as [s|]; [|destruct tradeOpen as [t|]].
  - exists (Signal.entryType s ++ " " ++ Signal.symbol s ++ " " ++ Signal.positionType s
            ++ " " ++ type_of (Some s) tradeOpen).
    now rewrite !append_assoc.
  - exists (TradeOpen.symbol t ++ " " ++ TradeOpen.positionType t ++ " "
            ++ type_of None (Some t)).
    now rewrite !append_assoc.
  - now exists (type_of None None).
Qed.

(** X12: the subject of every rendered message ends in a full stop and has
    no white space at either end. *)
Theorem subject_is_trimmed_and_stopped (env : Env) (messageType : string)
    (source : option string) (signal : option Signal) (tradeOpen : option TradeOpen)
    (reason : option string) (m : NotifierMessage) :
  getNotifierMessage env messageType source signal tradeOpen reason = Return m ->
  (exists p, subject m = p ++ ".") /\ trim (subject m) = subject m.
Proof.
  intros H.
  assert (Hsubject : subject m = base_of messageType (action_of signal tradeOpen)).
  { destruct (IS_NOTIFIER_SHORT env) eqn:Hmode.
    - destruct (short_mode_inversion _ _ _ _ _ _ _ Hmode H) as (? & ? & _ & ->). reflexivity.
    - destruct (verbose_mode_inversion _ _ _ _ _ _ _ Hmode H) as (? & _ & ->). reflexivity. }
  rewrite Hsubject. unfold base_of.
  destruct (action_ends_with_full_stop signal tradeOpen) as (a & ->).
  replace (messageType ++ " " ++ a ++ ".") with ((messageType ++ " " ++ a) ++ String "." "")
    by (now rewrite !append_assoc).
  destruct (trimStart_keeps (messageType ++ " " ++ a) "." "" eq_refl) as (p & Hstart).
  assert (Htrim : trim ((messageType ++ " " ++ a) ++ String "." "") = p ++ String "." "").
  { unfold trim. rewrite Hstart. now apply trimEnd_ends. }
  rewrite Htrim. split; [now exists p|].
  unfold trim. rewrite <- Hstart, trimStart_idempotent, Hstart.
  now apply trimEnd_ends.
Qed.

Lemma short_cost_shape (env : Env) (tradeOpen : TradeOpen) (content content' : list string) :
  short_cost env tradeOpen content = Return content' ->
  exists tail, content' = (content ++ tail)%list.
Proof.
  unfold short_cost, push. destruct (TradeOpen.cost tradeOpen) as [cost|].
  - destruct (Numeric_truthy cost).
    + destruct (format env (of_Numeric (Some cost)) None) as [s|e]; cbn [bind];
        [|discriminate]. intros H. injection H as <-. now eexists.
    + intros H. injection H as <-. exists []. now rewrite app_nil_r.
  - intros H. injection H as <-. exists []. now rewrite app_nil_r.
Qed.

Lemma short_duration_shape (env : Env) (messageType : string) (tradeOpen : TradeOpen)
    (content content' : list string) :
  short_duration env messageType tradeOpen content = Return content' ->
  exists tail, content' = (content ++ tail)%list.
Proof.
  unfold short_duration, push.
  destruct (TradeOpen.timeBuy tradeOpen) as [tb|], (TradeOpen.timeSell tradeOpen) as [ts|];
    try (intros H; injection H as <-; exists []; now rewrite app_nil_r).
  destruct (messageType =? MessageType_SUCCESS)%string;
    [|intros H; injection H as <-; exists []; now rewrite app_nil_r].
  rewrite short_duration_text_returns. cbn [bind].
  intros H. injection H as <-. now eexists.
Qed.

(** X13: in short mode a SUCCESS trade with a buy and a sell price opens
    its raw body with "LOSS!" when the percentage that [calculatePnL]
    returns is below zero and with "PROFIT!" otherwise, in place of the
    severity.  The percentage, to three places with its zeros stripped and
    followed by "%", is the fragment after the reason, and the body closes
    with the action and the trade's strategy. *)
Theorem short_profit_or_loss_headline (env : Env) (source : option string)
    (signal : option Signal) (tradeOpen : TradeOpen) (reason : option string)
    (priceBuy priceSell : Numeric BigNumber) (m : NotifierMessage) :
  IS_NOTIFIER_SHORT env = true ->
  TradeOpen.priceBuy tradeOpen = Some priceBuy ->
  TradeOpen.priceSell tradeOpen = Some priceSell ->
  Numeric_truthy priceBuy = true ->
  Numeric_truthy priceSell = true ->
  getNotifierMessage env MessageType_SUCCESS source signal (Some tradeOpen) reason = Return m ->
  let percent := calculatePnL priceBuy priceSell in
  let headline := if BigNumber_isLessThan percent 0 then "LOSS!" else "PROFIT!" in
  exists after,
    content m
    = headline ++ " "
        ++ join (short_reason [] reason
                   ++ (replace_trailing_zeros (BigNumber_toFixed percent 3) ++ "%")%string
                   :: after)%list ". "
        ++ action_of signal (Some tradeOpen)
        ++ " " ++ TradeOpen.strategyName tradeOpen ++ ".".
Proof.
  intros Hshort Hbuy Hsell Htb Hts H percent headline.
  destruct (short_mode_inversion _ _ _ _ _ _ _ Hshort H) as (fragments & h & Hc & ->).
  cbn [content].
  unfold short_content, short_trade, short_pnl in Hc.
  rewrite Hbuy, Hsell, String.eqb_refl, Htb, Hts in Hc. cbn [andb] in Hc.
  unfold format in Hc. change ((3 <? 0) || (10 ^ 9 <? 3)) with false in Hc.
  cbn [bind] in Hc. fold percent in Hc. fold headline in Hc.
  destruct (short_cost env tradeOpen _) as [c2|e] eqn:Hcost; cbn [bind] in Hc;
    [|discriminate].
  destruct (short_duration env MessageType_SUCCESS tradeOpen c2) as [c3|e] eqn:Hduration;
    cbn [bind] in Hc; [|discriminate].
  injection Hc as <- <-.
  destruct (short_cost_shape _ _ _ _ Hcost) as (t1 & ->).
  destruct (short_duration_shape _ _ _ _ _ Hduration) as (t2 & ->).
  destruct (short_source_shape
              (((push (short_reason [] reason)
                   (replace_trailing_zeros (BigNumber_toFixed percent 3) ++ "%")) ++ t1)
                 ++ t2) source) as (t3 & ->).
  unfold push. rewrite <- !app_assoc. cbn [app].
  set (pct := replace_trailing_zeros (BigNumber_toFixed percent 3) ++ "%").
  exists (t1 ++ t2 ++ t3 ++ [""])%list.
  assert (Hsep : short_separator (short_reason [] reason ++ pct :: t1 ++ t2 ++ t3)
                 = (short_reason [] reason ++ pct :: t1 ++ t2 ++ t3 ++ [""])%list).
  { destruct (short_reason [] reason); unfold short_separator, push; cbn [app];
      rewrite <- ?app_assoc; cbn [app]; now rewrite <- ?app_assoc. }
  rewrite Hsep.
  set (body := join (short_reason [] reason ++ pct :: t1 ++ t2 ++ t3 ++ [""]) ". ").
  destruct (action_ends_with_full_stop signal (Some tradeOpen)) as (a & Ha).
  assert (Htrim : trim (headline ++ " " ++ body ++ action_of signal (Some tradeOpen))
                  = headline ++ " " ++ body ++ action_of signal (Some tradeOpen)).
  { rewrite Ha.
    replace (headline ++ " " ++ body ++ a ++ ".")
      with ((headline ++ " " ++ body ++ a) ++ String "." "")
      by (now rewrite !append_assoc).
    unfold headline. destruct (BigNumber_isLessThan percent 0).
    - apply (trim_identity "L" "." _ ("LOSS!" ++ " " ++ body ++ a)); reflexivity.
    - apply (trim_identity "P" "." _ ("PROFIT!" ++ " " ++ body ++ a)); reflexivity. }
  unfold short_strategy. rewrite Htrim. now rewrite !append_assoc.
Qed.

Lemma short_pnl_not_success (env : Env) (messageType : string) (tradeOpen : TradeOpen)
    (content : list string) (contentRaw : string) :
  (messageType =? MessageType_SUCCESS)%string = false ->
  short_pnl env messageType tradeOpen content contentRaw = Return (content, contentRaw).
Proof.
  intros Hne. unfold short_pnl. rewrite Hne.
  destruct (TradeOpen.priceBuy tradeOpen), (TradeOpen.priceSell tradeOpen); reflexivity.
Qed.

Lemma short_duration_not_success (env : Env) (messageType : string) (tradeOpen : TradeOpen)
    (content : list string) :
  (messageType =? MessageType_SUCCESS)%string = false ->
  short_duration env messageType tradeOpen content = Return content.
Proof.
  intros Hne. unfold short_duration. rewrite Hne.
  destruct (TradeOpen.timeBuy tradeOpen), (TradeOpen.timeSell tradeOpen); reflexivity.
Qed.

(** X14: in short mode only SUCCESS messages show a percentage and a
    duration.  For any other severity the prices and the times of the trade
    leave no trace: the message is the one of the same trade without them,
    the only fragment that the trade gives is its cost, and the raw body
    opens with the severity. *)
Theorem short_prices_and_times_need_success (env : Env) (messageType : string)
    (source : option string) (signal : option Signal) (tradeOpen : TradeOpen)
    (reason : option string) :
  IS_NOTIFIER_SHORT env = true ->
  (messageType =? MessageType_SUCCESS)%string = false ->
  getNotifierMessage env messageType source signal (Some tradeOpen) reason
  = getNotifierMessage env messageType source signal
      (Some (without_prices_and_times tradeOpen)) reason
  /\ short_content env messageType source (Some tradeOpen) reason
     = bind (short_cost env tradeOpen (short_reason [] reason))
         (fun content => Return (short_separator (short_source content source), messageType)).
Proof.
  intros Hshort Hne.
  assert (Hcontent : forall t : TradeOpen,
            short_content env messageType source (Some t) reason
            = bind (short_cost env t (short_reason [] reason))
                (fun content =>
                   Return (short_separator (short_source content source), messageType))).
  { intros t. unfold short_content, short_trade.
    rewrite short_pnl_not_success by exact Hne. cbn [bind].
    destruct (short_cost env t (short_reason [] reason)) as [c|e]; cbn [bind]; [|reflexivity].
    rewrite short_duration_not_success by exact Hne. reflexivity. }
  split; [|apply Hcontent].
  unfold getNotifierMessage. rewrite Hshort, !Hcontent. reflexivity.
Qed.

(** *** Verbose mode *)

(** The ten lines of a trade. *)
Lemma verbose_trade_lines (env : Env) (tradeOpen : TradeOpen) (content lines : list string) :
  verbose_trade env (Some tradeOpen) content = Return lines ->
  exists quantity cost borrow wallet tradingType priceBuy timeBuy priceSell timeSell lucro,
    lines = (content ++ [("quantity: " ++ quantity)%string;
                         ("cost: " ++ cost)%string;
                         ("borrow: " ++ borrow)%string;
                         ("wallet: " ++ wallet)%string;
                         ("type: " ++ tradingType)%string;
                         ("trade buy price: " ++ priceBuy)%string;
                         ("buy executed: " ++ timeBuy)%string;
                         ("trade sell price: " ++ priceSell)%string;
                         ("sell executed: " ++ timeSell)%string;
                         ("LUCRO: " ++ lucro)%string])%list
    /\ format env
         (of_number (ToNumber (TradeOpen.quantity tradeOpen)
                       * ToNumber (TradeOpen.priceSell tradeOpen)
                     - ToNumber (TradeOpen.quantity tradeOpen)
                       * ToNumber (TradeOpen.priceBuy tradeOpen))%float) None
       = Return lucro.
Proof.
  unfold verbose_trade.
  destruct (format env (of_number _) None) as [lucro|e] eqn:Hlucro.
  - repeat
      match goal with
      | |- context [format env ?v None] =>
          let s := fresh "s" in
          destruct (format env v None) as [s|]; cbn [bind]; [|discriminate]
      end.
    intros H. injection H as <-. unfold push. rewrite <- !app_assoc. cbn [app].
    now repeat eexists.
  - repeat
      match goal with
      | |- context [format env ?v None] =>
          let s := fresh "s" in
          destruct (format env v None) as [s|]; cbn [bind]; [|discriminate]
      end.
    discriminate.
Qed.

Lemma verbose_reason_shape (content : list string) (reason : option string) :
  exists tail,
    verbose_reason content reason = (content ++ tail)%list
    /\ List.length tail = if truthy reason then 2%nat else 0%nat.
Proof.
  unfold verbose_reason, push. destruct reason as [r|].
  - destruct (truthy (Some r)).
    + exists [""; r]. now rewrite <- app_assoc.
    + exists []. now rewrite app_nil_r.
  - exists []. now rewrite app_nil_r.
Qed.

(** X15: the layout of the verbose body.  It is the subject, a space, and
    the lines joined by line feeds, the first line being empty; the html
    body has the same lines joined by "<br/>".  After the empty line come
    one line for a source, four for a signal (or one, the strategy, for a
    trade without signal), ten for a trade, and two for a reason (an empty
    line and the reason). *)
Theorem verbose_body_layout (env : Env) (messageType : string) (source : option string)
    (signal : option Signal) (tradeOpen : option TradeOpen) (reason : option string)
    (m : NotifierMessage) :
  IS_NOTIFIER_SHORT env = false ->
  getNotifierMessage env messageType source signal tradeOpen reason = Return m ->
  exists lines,
    content m = subject m ++ " " ++ join ("" :: lines) LF
    /\ contentHtml m
       = baseHtml_of messageType (action_of signal tradeOpen) ++ join ("" :: lines) "<br/>"
    /\ List.length lines
       = ((if truthy source then 1 else 0)
          + match signal, tradeOpen with
            | Some _, _ => 4
            | None, Some _ => 1
            | None, None => 0
            end
          + match tradeOpen with Some _ => 10 | None => 0 end
          + (if truthy reason then 2 else 0))%nat.
Proof.
  intros Hverbose H.
  destruct (verbose_mode_inversion _ _ _ _ _ _ _ Hverbose H) as (lines & Hc & ->).
  cbn [content contentHtml subject].
  unfold verbose_content in Hc.
  set (c0 := match source with Some s => _ | None => _ end) in Hc.
  assert (H0 : exists t0, c0 = "" :: t0
                          /\ List.length t0 = if truthy source then 1%nat else 0%nat).
  { unfold c0, push. destruct source as [s|]; [|now exists []].
    destruct (truthy (Some s)); [now eexists|now exists []]. }
  destruct H0 as (t0 & H0 & Hl0). clearbody c0. subst c0.
  destruct (verbose_signal env signal tradeOpen ("" :: t0)) as [c1|e] eqn:Hs;
    cbn [bind] in Hc; [|discriminate].
  destruct (verbose_trade env tradeOpen c1) as [c2|e] eqn:Ht; cbn [bind] in Hc;
    [|discriminate].
  injection Hc as <-.
  assert (H1 : exists t1, c1 = (("" :: t0) ++ t1)%list
                 /\ List.length t1 = match signal, tradeOpen with
                                     | Some _, _ => 4%nat
                                     | None, Some _ => 1%nat
                                     | None, None => 0%nat
                                     end).
  { destruct signal as [s|].
    - destruct (verbose_signal_lines _ _ _ _ _ Hs) as (p & r & ->). now eexists.
    - unfold verbose_signal, push in Hs. destruct tradeOpen; injection Hs as <-;
        [now eexists|exists []; now rewrite app_nil_r]. }
  destruct H1 as (t1 & -> & Hl1).
  assert (H2 : exists t2, c2 = ((("" :: t0) ++ t1) ++ t2)%list
                 /\ List.length t2 = match tradeOpen with Some _ => 10%nat | None => 0%nat end).
  { destruct tradeOpen as [t|].
    - destruct (verbose_trade_lines _ _ _ _ Ht)
        as (? & ? & ? & ? & ? & ? & ? & ? & ? & ? & -> & _). now eexists.
    - unfold verbose_trade in Ht. injection Ht as <-. exists []. now rewrite app_nil_r. }
  destruct H2 as (t2 & -> & Hl2).
  destruct (verbose_reason_shape ((("" :: t0) ++ t1) ++ t2) reason) as (t3 & -> & Hl3).
  exists (t0 ++ t1 ++ t2 ++ t3)%list.
  rewrite <- !app_assoc. cbn [app].
  repeat split. rewrite !length_app. lia.
Qed.

Lemma nan_times (y : float) : (nan * y)%float = nan.
Proof. apply Prim2SF_inj. rewrite mul_spec. reflexivity. Qed.

Lemma times_nan (x : float) : (x * nan)%float = nan.
Proof.
  apply Prim2SF_inj. rewrite mul_spec. change (Prim2SF nan) with S754_nan.
  destruct (Prim2SF x); reflexivity.
Qed.

Lemma nan_minus (y : float) : (nan - y)%float = nan.
Proof. apply Prim2SF_inj. rewrite sub_spec. reflexivity. Qed.

Lemma minus_nan (x : float) : (x - nan)%float = nan.
Proof.
  apply Prim2SF_inj. rewrite sub_spec. change (Prim2SF nan) with S754_nan.
  destruct (Prim2SF x); reflexivity.
Qed.

Lemma nan_divided (y : float) : (nan / y)%float = nan.
Proof. apply Prim2SF_inj. rewrite div_spec. reflexivity. Qed.

Lemma format_nan (env : Env) (precision : option Z) (s : string) :
  format env (of_number nan) precision = Return s -> s = "NaN".
Proof.
  unfold format, Number_toFixed.
  destruct ((_ <? 0) || (100 <? _)); cbn [bind]; [discriminate|].
  change (Prim2SF nan) with S754_nan. cbn [bind].
  intros H. injection H as <-. reflexivity.
Qed.

(** X16: the gross profit of a trade that lacks its quantity or one of its
    prices.  In verbose mode the line computed at line 147 multiplies and
    subtracts undefined values: the body has the line "LUCRO: NaN". *)
Theorem verbose_profit_of_incomplete_trade (env : Env) (messageType : string)
    (source : option string) (signal : option Signal) (tradeOpen : TradeOpen)
    (reason : option string) (m : NotifierMessage) :
  IS_NOTIFIER_SHORT env = false ->
  TradeOpen.quantity tradeOpen = None \/ TradeOpen.priceSell tradeOpen = None
    \/ TradeOpen.priceBuy tradeOpen = None ->
  getNotifierMessage env messageType source signal (Some tradeOpen) reason = Return m ->
  includes (content m) "LUCRO: NaN" = true
  /\ includes (contentHtml m) "LUCRO: NaN" = true.
Proof.
  intros Hverbose Hmissing H.
  destruct (verbose_mode_inversion _ _ _ _ _ _ _ Hverbose H) as (lines & Hc & ->).
  cbn [content contentHtml].
  unfold verbose_content in Hc.
  destruct (verbose_signal env signal (Some tradeOpen) _) as [c1|e]; cbn [bind] in Hc;
    [|discriminate].
  destruct (verbose_trade env (Some tradeOpen) c1) as [c2|e] eqn:Ht; cbn [bind] in Hc;
    [|discriminate].
  injection Hc as <-.
  destruct (verbose_trade_lines _ _ _ _ Ht)
    as (q & c & b & w & ty & pb & tb & ps & ts & lucro & -> & Hlucro).
  assert (Hnan : (ToNumber (TradeOpen.quantity tradeOpen)
                    * ToNumber (TradeOpen.priceSell tradeOpen)
                  - ToNumber (TradeOpen.quantity tradeOpen)
                    * ToNumber (TradeOpen.priceBuy tradeOpen))%float = nan).
  { destruct Hmissing as [-> | [-> | ->]]; cbn [ToNumber].
    - now rewrite !nan_times, nan_minus.
    - now rewrite times_nan, nan_minus.
    - now rewrite times_nan, minus_nan. }
  rewrite Hnan in Hlucro. apply format_nan in Hlucro. subst lucro.
  destruct (verbose_reason_shape
              (c1 ++ [("quantity: " ++ q)%string; ("cost: " ++ c)%string;
                      ("borrow: " ++ b)%string; ("wallet: " ++ w)%string;
                      ("type: " ++ ty)%string; ("trade buy price: " ++ pb)%string;
                      ("buy executed: " ++ tb)%string;
                      ("trade sell price: " ++ ps)%string;
                      ("sell executed: " ++ ts)%string;
                      ("LUCRO: " ++ "NaN")%string])%list reason) as (tail & -> & _).
  assert (Hshape : exists before after,
             ((c1 ++ [("quantity: " ++ q)%string; ("cost: " ++ c)%string;
                      ("borrow: " ++ b)%string; ("wallet: " ++ w)%string;
                      ("type: " ++ ty)%string; ("trade buy price: " ++ pb)%string;
                      ("buy executed: " ++ tb)%string;
                      ("trade sell price: " ++ ps)%string;
                      ("sell executed: " ++ ts)%string;
                      ("LUCRO: " ++ "NaN")%string]) ++ tail)%list
             = (before ++ "LUCRO: NaN" :: after)%list).
  { exists (c1 ++ [("quantity: " ++ q)%string; ("cost: " ++ c)%string;
                   ("borrow: " ++ b)%string; ("wallet: " ++ w)%string;
                   ("type: " ++ ty)%string; ("trade buy price: " ++ pb)%string;
                   ("buy executed: " ++ tb)%string;
                   ("trade sell price: " ++ ps)%string;
                   ("sell executed: " ++ ts)%string])%list, tail.
    rewrite <- !app_assoc. reflexivity. }
  destruct Hshape as (before & after & ->).
  split.
  - destruct (join_middle before "LUCRO: NaN" after LF) as (p & r & ->).
    replace (base_of messageType (action_of signal (Some tradeOpen)) ++ " "
               ++ p ++ "LUCRO: NaN" ++ r)
      with ((base_of messageType (action_of signal (Some tradeOpen)) ++ " " ++ p)
              ++ "LUCRO: NaN" ++ r) by (now rewrite !append_assoc).
    apply includes_middle.
  - destruct (join_middle before "LUCRO: NaN" after "<br/>") as (p & r & ->).
    rewrite <- append_assoc. apply includes_middle.
Qed.

(** *** Exceptions *)

Lemma verbose_signal_outcome (env : Env) (signal : option Signal)
    (tradeOpen : option TradeOpen) (content : list string) :
  0 <= MAX_WEB_PRECISION env <= 100 ->
  match signal with
  | Some s =>
      if match Signal.timestamp s with Some Invalid_Date => true | _ => false end
      then verbose_signal env signal tradeOpen content = Throw RangeError
      else exists lines, verbose_signal env signal tradeOpen content = Return lines
  | None => exists lines, verbose_signal env signal tradeOpen content = Return lines
  end.
Proof.
  intros Hp. unfold verbose_signal. destruct signal as [s|].
  - destruct (format_returns env (of_Numeric (Signal.price s)) None) as (p & ->);
      [exact Hp|apply of_Numeric_not_a_date|]. cbn [bind].
    destruct (Signal.timestamp s) as [[t|]|].
    + destruct (format_returns env (of_optional of_Date (Some (Date_at t))) None)
        as (r & ->); [exact Hp|discriminate|]. now eexists.
    + reflexivity.
    + now eexists.
  - destruct tradeOpen; now eexists.
Qed.

Lemma verbose_trade_invalid_date (env : Env) (tradeOpen : TradeOpen) (content : list string) :
  0 <= MAX_WEB_PRECISION env <= 100 ->
  TradeOpen.timeBuy tradeOpen = Some Invalid_Date
    \/ TradeOpen.timeSell tradeOpen = Some Invalid_Date ->
  verbose_trade env (Some tradeOpen) content = Throw RangeError.
Proof.
  intros Hp Hinvalid. unfold verbose_trade.
  destruct (format_returns env (of_Numeric (TradeOpen.quantity tradeOpen)) None) as (s1 & ->);
    [exact Hp|apply of_Numeric_not_a_date|]. cbn [bind].
  destruct (format_returns env (of_Numeric (TradeOpen.cost tradeOpen)) None) as (s2 & ->);
    [exact Hp|apply of_Numeric_not_a_date|]. cbn [bind].
  destruct (format_returns env (of_Numeric (TradeOpen.borrow tradeOpen)) None) as (s3 & ->);
    [exact Hp|apply of_Numeric_not_a_date|]. cbn [bind].
  destruct (format_returns env (of_optional of_string (TradeOpen.wallet tradeOpen)) None)
    as (s4 & ->); [exact Hp|apply of_optional_string_not_a_date|]. cbn [bind].
  destruct (format_returns env (of_optional of_string (TradeOpen.tradingType tradeOpen)) None)
    as (s5 & ->); [exact Hp|apply of_optional_string_not_a_date|]. cbn [bind].
  destruct (format_returns env (of_Numeric (TradeOpen.priceBuy tradeOpen)) None) as (s6 & ->);
    [exact Hp|apply of_Numeric_not_a_date|]. cbn [bind].
  destruct (TradeOpen.timeBuy tradeOpen) as [[t|]|] eqn:Hbuy; [| reflexivity |].
  - destruct (format_returns env (of_optional of_Date (Some (Date_at t))) None) as (s7 & ->);
      [exact Hp|discriminate|]. cbn [bind].
    destruct (format_returns env (of_Numeric (TradeOpen.priceSell tradeOpen)) None)
      as (s8 & ->); [exact Hp|apply of_Numeric_not_a_date|]. cbn [bind].
    destruct Hinvalid as [Hinvalid| ->]; [discriminate|reflexivity].
  - change (format env (of_optional of_Date None) None) with (Return (A := string) "").
    cbn [bind].
    destruct (format_returns env (of_Numeric (TradeOpen.priceSell tradeOpen)) None)
      as (s8 & ->); [exact Hp|apply of_Numeric_not_a_date|]. cbn [bind].
    destruct Hinvalid as [Hinvalid| ->]; [discriminate|reflexivity].
Qed.

(** X17: an invalid Date makes the verbose renderer throw.  With a precision
    that [toFixed] accepts, an event whose signal timestamp, buy time or
    sell time is an invalid Date is not rendered in verbose mode: the
    [toISOString] of [format] throws a RangeError. *)
Theorem verbose_invalid_date_throws (env : Env) (messageType : string)
    (source : option string) (signal : option Signal) (tradeOpen : option TradeOpen)
    (reason : option string) :
  IS_NOTIFIER_SHORT env = false ->
  0 <= MAX_WEB_PRECISION env <= 100 ->
  (exists s, signal = Some s /\ Signal.timestamp s = Some Invalid_Date)
  \/ (exists t, tradeOpen = Some t
                /\ (TradeOpen.timeBuy t = Some Invalid_Date
                    \/ TradeOpen.timeSell t = Some Invalid_Date)) ->
  getNotifierMessage env messageType source signal tradeOpen reason = Throw RangeError.
Proof.
  intros Hverbose Hp Hinvalid. unfold getNotifierMessage. rewrite Hverbose.
  unfold verbose_content.
  set (c0 := match source with Some s => _ | None => _ end). clearbody c0.
  pose proof (verbose_signal_outcome env signal tradeOpen c0 Hp) as Hsignal.
  destruct signal as [s|].
  - destruct (Signal.timestamp s) as [[t|]|] eqn:Htime.
    + destruct Hsignal as (c1 & ->). cbn [bind].
      destruct Hinvalid as [(s' & Hs' & Hbad)|(t' & -> & Hbad)].
      * injection Hs' as <-. congruence.
      * now rewrite (verbose_trade_invalid_date env t' c1 Hp Hbad).
    + now rewrite Hsignal.
    + destruct Hsignal as (c1 & ->). cbn [bind].
      destruct Hinvalid as [(s' & Hs' & Hbad)|(t' & -> & Hbad)].
      * injection Hs' as <-. congruence.
      * now rewrite (verbose_trade_invalid_date env t' c1 Hp Hbad).
  - destruct Hsignal as (c1 & ->). cbn [bind].
    destruct Hinvalid as [(s' & Hs' & _)|(t' & -> & Hbad)]; [discriminate|].
    now rewrite (verbose_trade_invalid_date env t' c1 Hp Hbad).
Qed.

Lemma duration_of_invalid_date (tradeOpen : TradeOpen) (timeBuy timeSell : Date) :
  timeBuy = Invalid_Date \/ timeSell = Invalid_Date ->
  duration tradeOpen timeBuy timeSell = nan.
Proof.
  intros Hinvalid. unfold duration.
  assert (Hnan : (getTime timeSell - getTime timeBuy)%float = nan).
  { destruct Hinvalid as [-> | ->]; cbn [getTime]; [apply minus_nan|apply nan_minus]. }
  rewrite Hnan.
  destruct (TradeOpen.positionType tradeOpen =? PositionType_SHORT)%string;
    rewrite ?minus_nan; apply nan_divided.
Qed.

(** X18: short mode does not format dates.  With a precision that [toFixed]
    accepts it renders every event, and a SUCCESS trade one of whose two
    times is an invalid Date gets the duration fragment "NaN hr". *)
Theorem short_mode_renders_invalid_dates (env : Env) (messageType : string)
    (source : option string) (signal : option Signal) (tradeOpen : option TradeOpen)
    (reason : option string) :
  IS_NOTIFIER_SHORT env = true ->
  0 <= MAX_WEB_PRECISION env <= 100 ->
  exists m,
    getNotifierMessage env messageType source signal tradeOpen reason = Return m
    /\ (forall t timeBuy timeSell,
          messageType = MessageType_SUCCESS ->
          tradeOpen = Some t ->
          TradeOpen.timeBuy t = Some timeBuy ->
          TradeOpen.timeSell t = Some timeSell ->
          timeBuy = Invalid_Date \/ timeSell = Invalid_Date ->
          includes (content m) "NaN hr" = true).
Proof.
  intros Hshort Hp.
  destruct (getNotifierMessage_returns env messageType source signal tradeOpen reason Hp)
    as (m & H); [intros Hverbose; congruence|].
  exists m. split; [exact H|].
  intros t timeBuy timeSell -> -> Hbuy Hsell Hinvalid.
  destruct (short_mode_inversion _ _ _ _ _ _ _ Hshort H) as (fragments & headline & Hc & ->).
  destruct (short_content_duration _ _ _ _ _ _ _ _ Hbuy Hsell Hc) as (before & after & ->).
  rewrite (duration_of_invalid_date t timeBuy timeSell Hinvalid).
  cbn [content].
  change (duration_text nan) with "NaN hr".
  now apply (raw_body_includes _ _ _ _ _ _ _ "N"%char "r"%char "aN hr" "NaN h").
Qed.

Lemma short_pnl_returns (env : Env) (messageType : string) (tradeOpen : TradeOpen)
    (content : list string) (contentRaw : string) :
  exists r, short_pnl env messageType tradeOpen content contentRaw = Return r.
Proof.
  unfold short_pnl.
  destruct (TradeOpen.priceBuy tradeOpen) as [pb|]; [|now eexists].
  destruct (TradeOpen.priceSell tradeOpen) as [ps|]; [|now eexists].
  destruct (_ && _ && _); [|now eexists].
  unfold format. change ((3 <? 0) || (10 ^ 9 <? 3)) with false. cbn [bind]. now eexists.
Qed.

(** X19: the configured precision is only used where a value is formatted
    with it.  In short mode that is the cost of a trade: with a cost that
    is a number and a precision below 0 or above 100 the renderer throws
    the RangeError of [toFixed]; with a cost that is a BigNumber and a
    precision below 0 or above 10^9, the error of bignumber.js.  An event
    without a trade in short mode, and a bare notice in either mode, is
    rendered under any precision. *)
Theorem precision_out_of_range (env : Env) (messageType : string) (source : option string)
    (signal : option Signal) (reason : option string) :
  (forall tradeOpen x,
      IS_NOTIFIER_SHORT env = true ->
      TradeOpen.cost tradeOpen = Some (number x) -> number_truthy x = true ->
      MAX_WEB_PRECISION env < 0 \/ 100 < MAX_WEB_PRECISION env ->
      getNotifierMessage env messageType source signal (Some tradeOpen) reason
      = Throw RangeError)
  /\ (forall tradeOpen b,
        IS_NOTIFIER_SHORT env = true ->
        TradeOpen.cost tradeOpen = Some (big b) ->
        MAX_WEB_PRECISION env < 0 \/ 10 ^ 9 < MAX_WEB_PRECISION env ->
        getNotifierMessage env messageType source signal (Some tradeOpen) reason
        = Throw BigNumberError)
  /\ (IS_NOTIFIER_SHORT env = true \/ signal = None ->
      exists m, getNotifierMessage env messageType source signal None reason = Return m).
Proof.
  split; [|split].
  - intros t x Hshort Hcost Htruthy Hp. unfold getNotifierMessage. rewrite Hshort.
    unfold short_content, short_trade.
    destruct (short_pnl_returns env messageType t (short_reason [] reason) messageType)
      as ([c h] & ->). cbn [bind].
    unfold short_cost. rewrite Hcost. cbn [Numeric_truthy]. rewrite Htruthy.
    unfold format, of_Numeric, Number_toFixed.
    replace ((MAX_WEB_PRECISION env <? 0) || (100 <? MAX_WEB_PRECISION env)) with true;
      [reflexivity|].
    symmetry. apply orb_true_iff. destruct Hp; [left; apply Z.ltb_lt|right; apply Z.ltb_lt];
      assumption.
  - intros t b Hshort Hcost Hp. unfold getNotifierMessage. rewrite Hshort.
    unfold short_content, short_trade.
    destruct (short_pnl_returns env messageType t (short_reason [] reason) messageType)
      as ([c h] & ->). cbn [bind].
    unfold short_cost. rewrite Hcost. cbn [Numeric_truthy].
    unfold format, of_Numeric.
    replace ((MAX_WEB_PRECISION env <? 0) || (10 ^ 9 <? MAX_WEB_PRECISION env)) with true;
      [reflexivity|].
    symmetry. apply orb_true_iff. destruct Hp; [left; apply Z.ltb_lt|right; apply Z.ltb_lt];
      assumption.
  - intros Hmode. unfold getNotifierMessage.
    destruct (IS_NOTIFIER_SHORT env) eqn:Hshort.
    + now eexists.
    + destruct Hmode as [Hmode| ->]; [discriminate|]. now eexists.
Qed.

End RendererFurther.

(** ** From the renderer to the fan-out *)

Section Composition.

Context {imports : Imports}.
Variable MessageType : list (string * string).
Variable notify : Notifier -> list Invocation -> Object NotifierMessage -> Outcome.

(** X20: the renderer hands the severity through.  A message rendered for a
    severity and then broadcast is gated by that severity: it is dropped
    when the position of the severity among the values of the enum is below
    the configured minimum and handed to every notifier otherwise, whatever
    the event it was rendered from. *)
Theorem rendered_message_is_gated_by_its_severity (env env' : Env) (severity : string)
    (source : option string) (signal : option (Signal.t BigNumber))
    (tradeOpen : option (TradeOpen.t BigNumber)) (reason : option string)
    (rendered : NotifierMessage) (a : nat) (order : list nat) (m : Module) :
  getNotifierMessage env severity source signal tradeOpen reason = Return rendered ->
  let msg := {| address := a; fields := rendered |} in
  rank MessageType msg = indexOf (Object_values MessageType) severity
  /\ invocations (snd (notifyAll MessageType notify env' order msg m))
     = if indexOf (Object_values MessageType) severity <? minimum MessageType env'
       then invocations m
       else (invocations m ++ map (call msg) (notifiers m))%list.
Proof.
  intros H msg.
  assert (Hseverity : messageType rendered = severity).
  { destruct (IS_NOTIFIER_SHORT env) eqn:Hmode.
    - destruct (short_mode_inversion _ _ _ _ _ _ _ Hmode H) as (? & ? & _ & ->). reflexivity.
    - destruct (verbose_mode_inversion _ _ _ _ _ _ _ Hmode H) as (? & _ & ->). reflexivity. }
  assert (Hrank : rank MessageType msg = indexOf (Object_values MessageType) severity).
  { unfold rank. cbn [msg fields]. now rewrite Hseverity. }
  split; [exact Hrank|]. rewrite <- Hrank.
  destruct (rank MessageType msg <? minimum MessageType env') eqn:E.
  - unfold notifyAll. now rewrite E.
  - apply notifyAll_invocations. now apply Z.ltb_ge.
Qed.

End Composition.

(** ** The further properties at work on the reference instance *)

(** Both channels succeed. *)
Lemma notifyAll_outcome_witness :
  let env := Sample.env "info" true in
  let m := initializeNotifiers env loaded in
  let msg := Sample.message "WARN" in
  fst (notifyAll Reference.MessageType (fun _ _ _ => Fulfils) env [1; 0]%nat msg m) = resolved
  /\ logged (snd (notifyAll Reference.MessageType (fun _ _ _ => Fulfils) env [1; 0]%nat msg m))
     = [].
Proof.
  intros env m msg.
  assert (Hgate : minimum Reference.MessageType env <= rank Reference.MessageType msg)
    by (vm_compute; discriminate).
  pose proof (notifyAll_outcome Reference.MessageType (fun _ _ _ => Fulfils) env [1; 0]%nat
                msg m Hgate) as H.
  cbv zeta in H. destruct H as (Hresolved & _ & _ & Hlogged).
  assert (Hall : fst (notifyAll Reference.MessageType (fun _ _ _ => Fulfils) env [1; 0]%nat
                        msg m) = resolved).
  { apply Hresolved. repeat constructor. }
  split; [exact Hall|]. rewrite Hlogged, Hall. reflexivity.
Defined.

Lemma notifyAll_on_empty_registry_witness :
  let env := {| IS_NOTIFIER_GMAIL_ENABLED := false;
                IS_NOTIFIER_TELEGRAM_ENABLED := false;
                NOTIFIER_LEVEL := "info";
                IS_NOTIFIER_SHORT := true;
                MAX_WEB_PRECISION := 8 |} in
  notifyAll Reference.MessageType Reference.notify env [1; 0]%nat (Sample.message "ERROR")
    (initializeNotifiers env loaded) = (resolved, loaded).
Proof.
  intros env.
  exact (proj2 (notifyAll_on_empty_registry Reference.MessageType Reference.notify env
                  [1; 0]%nat (Sample.message "ERROR") loaded) eq_refl eq_refl).
Defined.

(** "warn" and "Warn" are one level. *)
Lemma notifyAll_level_case_insensitive_witness :
  let m := initializeNotifiers (Sample.env "warn" true) loaded in
  notifyAll Reference.MessageType Reference.notify (Sample.env "warn" true) [1; 0]%nat
    (Sample.message "INFO") m
  = notifyAll Reference.MessageType Reference.notify (Sample.env "Warn" true) [1; 0]%nat
      (Sample.message "INFO") m.
Proof.
  intros m.
  exact (proj1 (notifyAll_level_case_insensitive Reference.MessageType Reference.notify
                  (Sample.env "warn" true) (Sample.env "Warn" true) [1; 0]%nat
                  (Sample.message "INFO") m) eq_refl).
Defined.

(** INFO is declared second and WARN fourth: under "warn" an INFO message
    is dropped. *)
Lemma notifyAll_follows_declaration_order_witness :
  let env := Sample.env "warn" true in
  let m := initializeNotifiers env loaded in
  invocations (snd (notifyAll Reference.MessageType Reference.notify env [1; 0]%nat
                      (Sample.message "INFO") m)) = [].
Proof.
  intros env m.
  assert (Hkeys : NoDup (Object_keys Reference.MessageType)).
  { repeat constructor; simpl; intuition discriminate. }
  exact (notifyAll_follows_declaration_order Reference.MessageType Reference.notify env
           [1; 0]%nat (Sample.message "INFO") m 1 3 "INFO" "INFO" "WARN" "WARN"
           Hkeys Hkeys eq_refl eq_refl eq_refl eq_refl).
Defined.

(** A severity that the enum does not have. *)
Lemma notifyAll_drops_unknown_severity_witness :
  let env := Sample.env "info" true in
  let m := initializeNotifiers env loaded in
  notifyAll Reference.MessageType Reference.notify env [1; 0]%nat (Sample.message "NOTICE") m
  = (resolved, m).
Proof.
  intros env m.
  assert (Hunknown : ~ In (messageType (fields (Sample.message "NOTICE")))
                       (Object_values Reference.MessageType)).
  { simpl. intuition discriminate. }
  assert (Hlevel : In (toUpperCase (NOTIFIER_LEVEL env)) (Object_keys Reference.MessageType)).
  { simpl. auto. }
  exact (proj2 (notifyAll_drops_unknown_severity Reference.MessageType Reference.notify env
                  [1; 0]%nat (Sample.message "NOTICE") m Hunknown Hlevel)).
Defined.

(** Only the second channel is ever enabled. *)
Lemma disabled_channel_is_never_called_witness :
  let env := {| IS_NOTIFIER_GMAIL_ENABLED := false;
                IS_NOTIFIER_TELEGRAM_ENABLED := true;
                NOTIFIER_LEVEL := "info";
                IS_NOTIFIER_SHORT := true;
                MAX_WEB_PRECISION := 8 |} in
  let ops := [Initialize env; Broadcast env [0]%nat (Sample.message "WARN");
              Initialize env; Broadcast env [1; 0]%nat (Sample.message "ERROR")] in
  calls_to gmail (invocations (run Reference.MessageType Reference.notify ops loaded)) = 0%nat
  /\ calls_to telegram (invocations (run Reference.MessageType Reference.notify ops loaded))
     = 3%nat.
Proof.
  intros env ops. split; [|reflexivity].
  apply (disabled_channel_is_never_called Reference.MessageType Reference.notify ops gmail).
  intros env' Hin. simpl in Hin.
  destruct Hin as [<-|[<-|[]]]; reflexivity.
Defined.

Lemma empty_inputs_are_absent_witness :
  getNotifierMessage (imports := Reference.imports) (Sample.env "info" true) "INFO"
    (Some "signal") (Some (Sample.signal "8")) None (Some "Stopped.")
  = getNotifierMessage (imports := Reference.imports) (Sample.env "info" true) "INFO"
      None (Some (Sample.signal "8")) None (Some "Stopped.").
Proof.
  exact (proj2 (proj2 (empty_inputs_are_absent (imports := Reference.imports)
                         (Sample.env "info" true) "INFO" None (Some (Sample.signal "8"))
                         None (Some "Stopped."))) eq_refl).
Defined.


Lemma subject_is_trimmed_and_stopped_witness :
  exists m,
    getNotifierMessage (imports := Reference.imports) (Sample.env "info" false) "WARN"
      None (Some (Sample.signal "8")) None None = Return m
    /\ trim (subject m) = subject m.
Proof.
  destruct (getNotifierMessage (imports := Reference.imports) (Sample.env "info" false)
              "WARN" None (Some (Sample.signal "8")) None None) as [m|e] eqn:H;
    [|vm_compute in H; discriminate H].
  exists m. split; [reflexivity|].
  exact (proj2 (subject_is_trimmed_and_stopped (imports := Reference.imports) _ _ _ _ _ _
                  m H)).
Defined.

(** Bought at 100 and sold at 90. *)
Lemma short_profit_or_loss_headline_witness :
  exists m,
    getNotifierMessage (imports := Reference.imports) (Sample.env "info" true) "SUCCESS"
      None None (Some Sample.priced_trade) (Some "Closed.") = Return m
    /\ exists after,
         content m
         = "LOSS!" ++ " " ++ join ("Closed" :: "-10%" :: after) ". "
             ++ "ETHUSDT LONG trade." ++ " " ++ "Beta" ++ ".".
Proof.
  destruct (getNotifierMessage (imports := Reference.imports) (Sample.env "info" true)
              "SUCCESS" None None (Some Sample.priced_trade) (Some "Closed.")) as [m|e] eqn:H;
    [|vm_compute in H; discriminate H].
  exists m. split; [reflexivity|].
  exact (short_profit_or_loss_headline (imports := Reference.imports)
           (Sample.env "info" true) None None Sample.priced_trade (Some "Closed.")
           (big (Decimal.dec 100 0)) (big (Decimal.dec 90 0)) m
           eq_refl eq_refl eq_refl eq_refl eq_refl H).
Defined.

(** A WARN message about the same trade shows the cost only. *)
Lemma short_prices_and_times_need_success_witness :
  getNotifierMessage (imports := Reference.imports) (Sample.env "info" true) "WARN"
    None None (Some Sample.priced_trade) None
  = getNotifierMessage (imports := Reference.imports) (Sample.env "info" true) "WARN"
      None None (Some (without_prices_and_times Sample.priced_trade)) None.
Proof.
  exact (proj1 (short_prices_and_times_need_success (imports := Reference.imports)
                  (Sample.env "info" true) "WARN" None None Sample.priced_trade None
                  eq_refl eq_refl)).
Defined.

(** A signal with its trade, a source and a reason: seventeen lines after
    the empty one. *)
Lemma verbose_body_layout_witness :
  exists m lines,
    getNotifierMessage (imports := Reference.imports) (Sample.env "info" false) "SUCCESS"
      (Some "manual") (Some (Sample.signal "8")) (Some Sample.priced_trade)
      (Some "Closed.") = Return m
    /\ content m = subject m ++ " " ++ join ("" :: lines) LF
    /\ List.length lines = 17%nat.
Proof.
  destruct (getNotifierMessage (imports := Reference.imports) (Sample.env "info" false)
              "SUCCESS" (Some "manual") (Some (Sample.signal "8"))
              (Some Sample.priced_trade) (Some "Closed.")) as [m|e] eqn:H;
    [|vm_compute in H; discriminate H].
  destruct (verbose_body_layout (imports := Reference.imports) (Sample.env "info" false)
              "SUCCESS" (Some "manual") (Some (Sample.signal "8"))
              (Some Sample.priced_trade) (Some "Closed.") m eq_refl H)
    as (lines & Hcontent & _ & Hlength).
  exists m, lines. split; [reflexivity|]. split; [exact Hcontent|exact Hlength].
Defined.

(** A trade without prices. *)
Lemma verbose_profit_of_incomplete_trade_witness :
  exists m,
    getNotifierMessage (imports := Reference.imports) (Sample.env "info" false) "SUCCESS"
      None None (Some (Sample.trade 1700000000000 45000)) None = Return m
    /\ includes (content m) "LUCRO: NaN" = true.
Proof.
  destruct (getNotifierMessage (imports := Reference.imports) (Sample.env "info" false)
              "SUCCESS" None None (Some (Sample.trade 1700000000000 45000)) None)
    as [m|e] eqn:H; [|vm_compute in H; discriminate H].
  exists m. split; [reflexivity|].
  exact (proj1 (verbose_profit_of_incomplete_trade (imports := Reference.imports)
                  (Sample.env "info" false) "SUCCESS" None None
                  (Sample.trade 1700000000000 45000) None m eq_refl
                  (or_intror (or_introl eq_refl)) H)).
Defined.

Lemma verbose_invalid_date_throws_witness :
  getNotifierMessage (imports := Reference.imports) (Sample.env "info" false) "SUCCESS"
    None None (Some Sample.undated_trade) None = Throw RangeError.
Proof.
  apply (verbose_invalid_date_throws (imports := Reference.imports)).
  - reflexivity.
  - simpl. lia.
  - right. exists Sample.undated_trade. split; [reflexivity|]. left. reflexivity.
Defined.

Lemma short_mode_renders_invalid_dates_witness :
  exists m,
    getNotifierMessage (imports := Reference.imports) (Sample.env "info" true) "SUCCESS"
      None None (Some Sample.undated_trade) None = Return m
    /\ includes (content m) "NaN hr" = true.
Proof.
  assert (Hp : 0 <= MAX_WEB_PRECISION (Sample.env "info" true) <= 100) by (simpl; lia).
  destruct (short_mode_renders_invalid_dates (imports := Reference.imports)
              (Sample.env "info" true) "SUCCESS" None None (Some Sample.undated_trade) None
              eq_refl Hp) as (m & H & Hnan).
  exists m. split; [exact H|].
  apply (Hnan Sample.undated_trade Invalid_Date (Date_at 1700000045000)); auto.
Defined.

(** A cost that is a number, under the precision 101. *)
Lemma precision_out_of_range_witness :
  getNotifierMessage (imports := Reference.imports)
    {| IS_NOTIFIER_GMAIL_ENABLED := true;
       IS_NOTIFIER_TELEGRAM_ENABLED := true;
       NOTIFIER_LEVEL := "info";
       IS_NOTIFIER_SHORT := true;
       MAX_WEB_PRECISION := 101 |}
    "INFO" None None (Some Sample.undated_trade) None = Throw RangeError.
Proof.
  apply (proj1 (precision_out_of_range (imports := Reference.imports) _ "INFO" None None None)
           Sample.undated_trade 12.5%float).
  - reflexivity.
  - reflexivity.
  - reflexivity.
  - right. simpl. lia.
Defined.

Lemma rendered_message_is_gated_by_its_severity_witness :
  exists rendered,
    getNotifierMessage (imports := Reference.imports) (Sample.env "info" true) "INFO"
      None None None (Some "Stopped.") = Return rendered
    /\ invocations
         (snd (notifyAll Reference.MessageType Reference.notify (Sample.env "warn" true)
                 [1; 0]%nat {| address := 7; fields := rendered |}
                 (initializeNotifiers (Sample.env "warn" true) loaded))) = [].
Proof.
  destruct (getNotifierMessage (imports := Reference.imports) (Sample.env "info" true)
              "INFO" None None None (Some "Stopped.")) as [rendered|e] eqn:H;
    [|vm_compute in H; discriminate H].
  exists rendered. split; [reflexivity|].
  pose proof (rendered_message_is_gated_by_its_severity (imports := Reference.imports)
                Reference.MessageType Reference.notify (Sample.env "info" true)
                (Sample.env "warn" true) "INFO" None None None (Some "Stopped.") rendered
                7 [1; 0]%nat (initializeNotifiers (Sample.env "warn" true) loaded) H) as Hgated.
  cbv zeta in Hgated. destruct Hgated as (_ & Hcalls). rewrite Hcalls. reflexivity.
Defined.
